(** * An authenticated calculation service: users, tokens, calculations

  A shallow embedding of the request handlers of [app/routers/users.py]
  and of the schemas of [app/schemas/__init__.py], together with the parts
  of the application those handlers rely on.  The relational store is a
  pair of tables (lists of rows in insertion order) with serial primary
  keys; a handler is a function from the store to an outcome (a returned
  value or a raised [HTTPException]) and the store it leaves behind. *)

From Stdlib Require Import Ascii String List Bool Arith ZArith Lia QArith.
Import ListNotations.
Open Scope string_scope.
Open Scope nat_scope.

Set Implicit Arguments.

(* ------------------------------------------------------------------ *)
(** ** Outcomes of a handler *)

(** [fastapi.HTTPException(status_code=..., detail=...)]. *)
Record HTTPException := mkHTTPException {
  status_code : nat;
  detail : string
}.

Inductive Outcome (A : Type) : Type :=
| Return (a : A)
| Raise (e : HTTPException).

Arguments Return {A} a.
Arguments Raise {A} e.

Definition raised {A} (o : Outcome A) : option HTTPException :=
  match o with Return _ => None | Raise e => Some e end.

Definition returned {A} (o : Outcome A) : option A :=
  match o with Return a => Some a | Raise _ => None end.

(* ------------------------------------------------------------------ *)
(** ** Rows of the [users] table ([app.models.User] as the handlers use it:
    the constructor takes [email], [username] and [password_hash]; the
    store supplies [id] and [created_at]). *)

Module User.
Record t := Build {
  id : nat;
  username : string;
  email : string;
  password_hash : string;
  created_at : Z
}.

Definition with_username (n : string) (u : t) : t :=
  Build (id u) n (email u) (password_hash u) (created_at u).
Definition with_email (e : string) (u : t) : t :=
  Build (id u) (username u) e (password_hash u) (created_at u).
Definition with_password_hash (h : string) (u : t) : t :=
  Build (id u) (username u) (email u) h (created_at u).
End User.

(* ------------------------------------------------------------------ *)
(** ** Schemas ([app/schemas/__init__.py]) *)

(** A [str] is kept as the bytes of its UTF-8 encoding, so two of them are
    equal exactly when their bytes are; its length, which is what
    [min_length] and [max_length] bound, is the number of its characters,
    that is, of the bytes that do not continue a character (those of the
    form 10xxxxxx do). *)
Definition is_continuation (c : ascii) : bool :=
  match c with
  | Ascii _ _ _ _ _ _ b6 b7 => b7 && negb b6
  end.

Fixpoint char_length (s : string) : nat :=
  match s with
  | EmptyString => 0
  | String c rest =>
    (if is_continuation c then 0 else 1) + char_length rest
  end.

(** [Field(..., min_length=lo, max_length=hi)]. *)
Definition length_between (lo hi : nat) (s : string) : bool :=
  (lo <=? char_length s) && (char_length s <=? hi).

(** The e-mail syntax check behind [EmailStr] belongs to the validation
    library; the schemas only name it. *)
Class Pydantic := {
  EmailStr : string -> bool
}.

Module UserCreate.
Record t := Build {
  username : string;
  email : string;
  password : string
}.
Definition valid `{Pydantic} (r : t) : bool :=
  length_between 3 50 (username r)
  && EmailStr (email r)
  && length_between 8 100 (password r).
End UserCreate.

Module UserRead.
Record t := Build {
  id : nat;
  username : string;
  email : string;
  created_at : Z
}.
(** [ConfigDict(from_attributes=True)]: the four declared fields are read
    off the row, nothing else is. *)
Definition from_attributes (u : User.t) : t :=
  Build (User.id u) (User.username u) (User.email u) (User.created_at u).
End UserRead.

(** [UserUpdate]: every field optional, each bounded as in [UserCreate]. *)
Module UserUpdate.
Record t := Build {
  username : option string;
  email : option string;
  password : option string
}.
Definition valid `{Pydantic} (r : t) : bool :=
  match username r with
  | Some n => length_between 3 50 n
  | None => true
  end
  && match email r with
     | Some e => EmailStr e
     | None => true
     end
  && match password r with
     | Some p => length_between 8 100 p
     | None => true
     end.
End UserUpdate.

Module UserProfileUpdate.
Record t := Build {
  username : option string;
  email : option string
}.
Definition valid `{Pydantic} (r : t) : bool :=
  match username r with
  | Some n => length_between 3 50 n
  | None => true
  end
  && match email r with
     | Some e => EmailStr e
     | None => true
     end.
End UserProfileUpdate.

Module PasswordChange.
Record t := Build {
  current_password : string;
  new_password : string
}.
Definition valid (r : t) : bool :=
  length_between 8 100 (current_password r)
  && length_between 8 100 (new_password r).
End PasswordChange.

Module UserLogin.
Record t := Build {
  username : string;
  password : string
}.
End UserLogin.

Module Token.
Record t := Build {
  access_token : string;
  token_type : string
}.
End Token.

(** [user] is declared as a [UserRead]; the handler hands over the row and
    the rendering below reads the declared fields off it. *)
Module UserProfileResponse.
Record t := Build {
  user : User.t;
  access_token : option string;
  token_type : string
}.
End UserProfileResponse.

(* ------------------------------------------------------------------ *)
(** ** The utilities the handlers import ([app.utils], [app.utils.auth]).

    Their bodies are not part of the handlers; the handlers are written
    against this interface.  A hash may draw a fresh salt and a token
    carries an expiry, so both take what they read from the surroundings
    (entropy, clock) as an argument. *)

Class AuthUtils := {
  Salt : Type;
  hash_password : Salt -> string -> string;
  verify_password : string -> string -> bool;
  create_access_token : Z -> list (string * string) -> string;
  decode_access_token : Z -> string -> option string
}.

(** What a request reads from its surroundings. *)
Record Ambient `{AuthUtils} := mkAmbient {
  now : Z;
  entropy : Salt
}.
Arguments mkAmbient {_} now entropy.

(* ------------------------------------------------------------------ *)
(** ** Calculations

    The operand type and its arithmetic are those of the host language;
    the service only chooses which operation to apply, so they are kept
    abstract here. *)

Class Numeric := {
  num : Type;
  num_add : num -> num -> num;
  num_sub : num -> num -> num;
  num_mul : num -> num -> num;
  num_div : num -> num -> num;
  is_zero : num -> bool
}.

(** Modelled from the spec: the type of a calculation
    ([app.schemas.calculation.CalculationType], not among the sources),
    with the four names the tests send: "Add", "Subtract", "Multiply",
    "Divide". *)
Inductive CalculationType := Add | Subtract | Multiply | Divide.

Definition CalculationType_eqb (x y : CalculationType) : bool :=
  match x, y with
  | Add, Add | Subtract, Subtract | Multiply, Multiply | Divide, Divide => true
  | _, _ => false
  end.

(** Modelled from the spec: a row of the calculations table
    ([app.models.Calculation], not among the sources), with the fields the
    tests send and read. *)
Module Calculation.
Record t `{Numeric} := Build {
  id : nat;
  a : num;
  b : num;
  type : CalculationType;
  result : num;
  user_id : nat
}.
Arguments Build {_} id a b type result user_id.
End Calculation.

(** Modelled from the spec: the body of a create request, as the tests
    send it. *)
Module CalculationCreate.
Record t `{Numeric} := Build {
  a : num;
  b : num;
  type : CalculationType
}.
Arguments Build {_} a b type.
End CalculationCreate.

(** Modelled from the spec: the body of an update request; the tests send
    any subset of the three fields. *)
Module CalculationUpdate.
Record t `{Numeric} := Build {
  a : option num;
  b : option num;
  type : option CalculationType
}.
Arguments Build {_} a b type.
End CalculationUpdate.

(* ------------------------------------------------------------------ *)
(** ** The store: two tables and their primary-key sequences *)

Record Db `{Numeric} := mkDb {
  users : list User.t;
  calculations : list Calculation.t;
  user_seq : nat;
  calculation_seq : nat
}.

Definition empty_db `{Numeric} : Db := mkDb [] [] 1 1.

Section Service.
Context {V : Pydantic} {U : AuthUtils} {N : Numeric}.

Definition set_users (us : list User.t) (db : Db) : Db :=
  mkDb us (calculations db) (user_seq db) (calculation_seq db).

Definition set_calculations (cs : list Calculation.t) (db : Db) : Db :=
  mkDb (users db) cs (user_seq db) (calculation_seq db).

(** [db.query(User).filter(User.email == e).first()] *)
Definition first_by_email (e : string) (db : Db) : option User.t :=
  find (fun u => User.email u =? e)%string (users db).

(** [db.query(User).filter(User.username == n).first()] *)
Definition first_by_username (n : string) (db : Db) : option User.t :=
  find (fun u => User.username u =? n)%string (users db).

(** [db.add(new_user); db.commit()]: the row is appended and the key
    sequence advances. *)
Definition add_user (u : User.t) (db : Db) : Db :=
  mkDb (users db ++ [u]) (calculations db) (S (user_seq db)) (calculation_seq db).

(** [db.commit()] after attribute assignments on a loaded row: the row
    with that primary key is overwritten. *)
Definition commit_user (u : User.t) (db : Db) : Db :=
  set_users (map (fun r => if User.id r =? User.id u then u else r) (users db)) db.

(** [db.refresh(u)]: the attributes are read back from the row with the
    same primary key. *)
Definition refresh (u : User.t) (db : Db) : User.t :=
  match find (fun r => User.id r =? User.id u) (users db) with
  | Some r => r
  | None => u
  end.

(** Truth value of a string in a condition: empty is false. *)
Definition truthy (s : string) : bool := negb (s =? "")%string.

Definition is_some {A} (o : option A) : bool :=
  match o with Some _ => true | None => false end.

(* ------------------------------------------------------------------ *)
(** ** [app/routers/users.py] *)

Definition register_user (env : Ambient) (user : UserCreate.t) (db : Db)
  : Outcome User.t * Db :=
  match first_by_email (UserCreate.email user) db with
  | Some _ => (Raise (mkHTTPException 400 "Email already registered"), db)
  | None =>
    match first_by_username (UserCreate.username user) db with
    | Some _ => (Raise (mkHTTPException 400 "Username already taken"), db)
    | None =>
      let hashed_pwd := hash_password (entropy env) (UserCreate.password user) in
      let new_user :=
        User.Build (user_seq db) (UserCreate.username user)
                   (UserCreate.email user) hashed_pwd (now env) in
      (Return new_user, add_user new_user db)
    end
  end.

Definition login_user (env : Ambient) (user : UserLogin.t) (db : Db)
  : Outcome Token.t * Db :=
  match first_by_username (UserLogin.username user) db with
  | None => (Raise (mkHTTPException 401 "Invalid credentials"), db)
  | Some db_user =>
    if negb (verify_password (UserLogin.password user) (User.password_hash db_user))
    then (Raise (mkHTTPException 401 "Invalid credentials"), db)
    else
      let access_token :=
        create_access_token (now env) [("sub", User.username db_user)] in
      (Return (Token.Build access_token "bearer"), db)
  end.

Definition read_current_user (current_user : User.t) : Outcome User.t :=
  Return current_user.

Definition update_current_user (env : Ambient) (update : UserProfileUpdate.t)
  (db : Db) (current_user : User.t) : Outcome UserProfileResponse.t * Db :=
  let username_taken :=
    match UserProfileUpdate.username update with
    | Some n => truthy n && negb (n =? User.username current_user)%string
                && is_some (first_by_username n db)
    | None => false
    end in
  if username_taken
  then (Raise (mkHTTPException 400 "Username already taken"), db)
  else
  let email_taken :=
    match UserProfileUpdate.email update with
    | Some e => truthy e && negb (e =? User.email current_user)%string
                && is_some (first_by_email e db)
    | None => false
    end in
  if email_taken
  then (Raise (mkHTTPException 400 "Email already registered"), db)
  else
  let current_user :=
    match UserProfileUpdate.username update with
    | Some n => if truthy n then User.with_username n current_user else current_user
    | None => current_user
    end in
  let current_user :=
    match UserProfileUpdate.email update with
    | Some e => if truthy e then User.with_email e current_user else current_user
    | None => current_user
    end in
  let db := commit_user current_user db in
  let current_user := refresh current_user db in
  let new_token :=
    match UserProfileUpdate.username update with
    | Some n => if truthy n
                then Some (create_access_token (now env)
                             [("sub", User.username current_user)])
                else None
    | None => None
    end in
  (Return (UserProfileResponse.Build current_user new_token "bearer"), db).

Definition change_password (env : Ambient) (payload : PasswordChange.t)
  (db : Db) (current_user : User.t) : Outcome (list (string * string)) * Db :=
  if negb (verify_password (PasswordChange.current_password payload)
                           (User.password_hash current_user))
  then (Raise (mkHTTPException 400 "Current password is incorrect"), db)
  else
    let current_user :=
      User.with_password_hash
        (hash_password (entropy env) (PasswordChange.new_password payload))
        current_user in
    (Return [("message", "Password updated successfully")],
     commit_user current_user db).

(* ------------------------------------------------------------------ *)
(** ** Identity resolution and the calculation handlers

    [get_current_user] and the calculation router are named by
    [users.py] and exercised by the tests, but their bodies are not among
    the sources at hand. *)

(** Modelled from the spec: [get_current_user] of [app.utils.auth], the
    "token-based identity resolution".  A request carries an optional
    bearer token; the token is checked and decoded to the subject it
    names, and the subject is looked up by username.  Each failure is a
    401, as the test of unauthenticated access expects. *)
Definition get_current_user (env : Ambient) (authorization : option string)
  (db : Db) : Outcome User.t :=
  match authorization with
  | None => Raise (mkHTTPException 401 "Not authenticated")
  | Some token =>
    match decode_access_token (now env) token with
    | None => Raise (mkHTTPException 401 "Could not validate credentials")
    | Some sub =>
      match first_by_username sub db with
      | None => Raise (mkHTTPException 401 "Could not validate credentials")
      | Some u => Return u
      end
    end
  end.

(** Modelled from the spec: the operation a calculation type names
    ("a basic arithmetic-calculation record service"); the results the
    tests expect are 10 + 5 = 15, 50 - 20 = 30, 7 * 8 = 56, 20 / 4 = 5. *)
Definition compute (t : CalculationType) (a b : num) : num :=
  match t with
  | Add => num_add a b
  | Subtract => num_sub a b
  | Multiply => num_mul a b
  | Divide => num_div a b
  end.

(** Modelled from the spec: the division-by-zero check, "a one-line
    guard". *)
Definition division_by_zero (t : CalculationType) (b : num) : bool :=
  CalculationType_eqb t Divide && is_zero b.

(** Modelled from the spec: adding a calculation row, as [add_user] does
    for users. *)
Definition add_calculation (c : Calculation.t) (db : Db) : Db :=
  mkDb (users db) (calculations db ++ [c]) (user_seq db) (S (calculation_seq db)).

(** Modelled from the spec: writing a changed calculation row back, as
    [commit_user] does for users. *)
Definition commit_calculation (c : Calculation.t) (db : Db) : Db :=
  set_calculations
    (map (fun r => if Calculation.id r =? Calculation.id c then c else r)
         (calculations db)) db.

(** Modelled from the spec: "per-user ownership": a calculation belongs
    to the user whose key it carries. *)
Definition owned_by (u : User.t) (c : Calculation.t) : bool :=
  Calculation.user_id c =? User.id u.

(** Modelled from the spec: the lookup of one calculation "scoped to the
    authenticated user": the row with the given key among the rows of the
    user. *)
Definition first_owned (calculation_id : nat) (u : User.t) (db : Db)
  : option Calculation.t :=
  find (fun c => (Calculation.id c =? calculation_id) && owned_by u c)
       (calculations db).

(** Modelled from the spec: the create handler of the calculation router.
    The guard rejects a division by zero with 422 (the status and the
    words "Division by zero" are those the tests check); otherwise the
    result is computed and the row is stored under the current user. *)
Definition create_calculation (calculation : CalculationCreate.t) (db : Db)
  (current_user : User.t) : Outcome Calculation.t * Db :=
  if division_by_zero (CalculationCreate.type calculation)
                      (CalculationCreate.b calculation)
  then (Raise (mkHTTPException 422 "Division by zero is not allowed"), db)
  else
    let new_calculation :=
      Calculation.Build (calculation_seq db)
        (CalculationCreate.a calculation) (CalculationCreate.b calculation)
        (CalculationCreate.type calculation)
        (compute (CalculationCreate.type calculation)
                 (CalculationCreate.a calculation)
                 (CalculationCreate.b calculation))
        (User.id current_user) in
    (Return new_calculation, add_calculation new_calculation db).

(** Modelled from the spec: the list handler, "scoped to the
    authenticated user". *)
Definition read_calculations (db : Db) (current_user : User.t)
  : Outcome (list Calculation.t) * Db :=
  (Return (filter (owned_by current_user) (calculations db)), db).

(** Modelled from the spec: the read-one handler; a key that is not a
    calculation of the current user is a 404 (the status the tests see
    after a delete). *)
Definition read_calculation (calculation_id : nat) (db : Db)
  (current_user : User.t) : Outcome Calculation.t * Db :=
  match first_owned calculation_id current_user db with
  | None => (Raise (mkHTTPException 404 "Calculation not found"), db)
  | Some c => (Return c, db)
  end.

Definition or_else {A} (o : option A) (d : A) : A :=
  match o with Some x => x | None => d end.

(** Modelled from the spec: the update handler.  Fields left out of the
    body keep their stored value; the guard and the computation are those
    of the create handler, applied to the values the row will hold. *)
Definition update_calculation (calculation_id : nat)
  (update : CalculationUpdate.t) (db : Db) (current_user : User.t)
  : Outcome Calculation.t * Db :=
  match first_owned calculation_id current_user db with
  | None => (Raise (mkHTTPException 404 "Calculation not found"), db)
  | Some c =>
    let a := or_else (CalculationUpdate.a update) (Calculation.a c) in
    let b := or_else (CalculationUpdate.b update) (Calculation.b c) in
    let t := or_else (CalculationUpdate.type update) (Calculation.type c) in
    if division_by_zero t b
    then (Raise (mkHTTPException 422 "Division by zero is not allowed"), db)
    else
      let c := Calculation.Build (Calculation.id c) a b t (compute t a b)
                                 (Calculation.user_id c) in
      (Return c, commit_calculation c db)
  end.

(** Modelled from the spec: the delete handler. *)
Definition delete_calculation (calculation_id : nat) (db : Db)
  (current_user : User.t) : Outcome unit * Db :=
  match first_owned calculation_id current_user db with
  | None => (Raise (mkHTTPException 404 "Calculation not found"), db)
  | Some c =>
    (Return tt,
     set_calculations
       (filter (fun r => negb (Calculation.id r =? Calculation.id c))
               (calculations db)) db)
  end.

(* ------------------------------------------------------------------ *)
(** ** Responses

    What the route decorators say about a returned value: the success
    status ([status_code=...], 200 when left out) and the
    [response_model] the value is rendered through. *)

#[local] Unset Elimination Schemes.
Inductive Json :=
| JNull
| JString (s : string)
| JInt (z : Z)
| JNum (x : num)
| JArray (items : list Json)
| JObject (fields : list (string * Json)).
#[local] Set Elimination Schemes.

Record Response := mkResponse {
  status : nat;
  body : Json
}.

Definition UserRead_json (r : UserRead.t) : Json :=
  JObject [("id", JInt (Z.of_nat (UserRead.id r)));
           ("username", JString (UserRead.username r));
           ("email", JString (UserRead.email r));
           ("created_at", JInt (UserRead.created_at r))].

Definition Token_json (t : Token.t) : Json :=
  JObject [("access_token", JString (Token.access_token t));
           ("token_type", JString (Token.token_type t))].

Definition UserProfileResponse_json (r : UserProfileResponse.t) : Json :=
  JObject [("user", UserRead_json
                      (UserRead.from_attributes (UserProfileResponse.user r)));
           ("access_token",
            match UserProfileResponse.access_token r with
            | Some t => JString t
            | None => JNull
            end);
           ("token_type", JString (UserProfileResponse.token_type r))].

Definition dict_json (d : list (string * string)) : Json :=
  JObject (map (fun kv => (fst kv, JString (snd kv))) d).

Definition CalculationType_name (t : CalculationType) : string :=
  match t with
  | Add => "Add"
  | Subtract => "Subtract"
  | Multiply => "Multiply"
  | Divide => "Divide"
  end.

(** Modelled from the spec: the read schema of a calculation; the tests
    read [id], [type], [result] and [user_id] off it. *)
Definition Calculation_json (c : Calculation.t) : Json :=
  JObject [("id", JInt (Z.of_nat (Calculation.id c)));
           ("a", JNum (Calculation.a c));
           ("b", JNum (Calculation.b c));
           ("type", JString (CalculationType_name (Calculation.type c)));
           ("result", JNum (Calculation.result c));
           ("user_id", JInt (Z.of_nat (Calculation.user_id c)))].

Definition error_response (e : HTTPException) : Response :=
  mkResponse (status_code e) (JObject [("detail", JString (detail e))]).

(** A body that fails its schema never reaches the handler. *)
Definition unprocessable : Response :=
  mkResponse 422 (JObject [("detail", JString "Request validation failed")]).

Definition respond {A} (ok : nat) (render : A -> Json) (r : Outcome A * Db)
  : Response * Db :=
  match fst r with
  | Return a => (mkResponse ok (render a), snd r)
  | Raise e => (error_response e, snd r)
  end.

(** [Depends(get_current_user)]: the handler runs only for a resolved
    user. *)
Definition authenticated (env : Ambient) (authorization : option string)
  (db : Db) (k : User.t -> Response * Db) : Response * Db :=
  match get_current_user env authorization db with
  | Return u => k u
  | Raise e => (error_response e, db)
  end.

Inductive Request :=
| PostRegister (user : UserCreate.t)
| PostLogin (user : UserLogin.t)
| GetMe (authorization : option string)
| PutMe (authorization : option string) (update : UserProfileUpdate.t)
| PostChangePassword (authorization : option string) (payload : PasswordChange.t)
| PostCalculation (authorization : option string) (calculation : CalculationCreate.t)
| GetCalculations (authorization : option string)
| GetCalculation (authorization : option string) (calculation_id : nat)
| PutCalculation (authorization : option string) (calculation_id : nat)
                 (update : CalculationUpdate.t)
| DeleteCalculation (authorization : option string) (calculation_id : nat).

Definition serve (env : Ambient) (req : Request) (db : Db) : Response * Db :=
  match req with
  | PostRegister user =>
    if UserCreate.valid user
    then respond 201 (fun u => UserRead_json (UserRead.from_attributes u))
                 (register_user env user db)
    else (unprocessable, db)
  | PostLogin user => respond 200 Token_json (login_user env user db)
  | GetMe auth =>
    authenticated env auth db (fun u =>
      respond 200 (fun u => UserRead_json (UserRead.from_attributes u))
              (read_current_user u, db))
  | PutMe auth update =>
    authenticated env auth db (fun u =>
      if UserProfileUpdate.valid update
      then respond 200 UserProfileResponse_json
                   (update_current_user env update db u)
      else (unprocessable, db))
  | PostChangePassword auth payload =>
    authenticated env auth db (fun u =>
      if PasswordChange.valid payload
      then respond 200 dict_json (change_password env payload db u)
      else (unprocessable, db))
  | PostCalculation auth calculation =>
    authenticated env auth db (fun u =>
      respond 201 Calculation_json (create_calculation calculation db u))
  | GetCalculations auth =>
    authenticated env auth db (fun u =>
      respond 200 (fun cs => JArray (map Calculation_json cs))
              (read_calculations db u))
  | GetCalculation auth calculation_id =>
    authenticated env auth db (fun u =>
      respond 200 Calculation_json (read_calculation calculation_id db u))
  | PutCalculation auth calculation_id update =>
    authenticated env auth db (fun u =>
      respond 200 Calculation_json
              (update_calculation calculation_id update db u))
  | DeleteCalculation auth calculation_id =>
    authenticated env auth db (fun u =>
      respond 204 (fun _ => JNull) (delete_calculation calculation_id db u))
  end.

(** The stores the service can be in: the empty one, and whatever a
    request leaves behind. *)
Inductive reachable : Db -> Prop :=
| reachable_empty : reachable empty_db
| reachable_serve env req db :
    reachable db -> reachable (snd (serve env req db)).

Fixpoint run (reqs : list (Ambient * Request)) (db : Db) : list Response * Db :=
  match reqs with
  | [] => ([], db)
  | (env, req) :: rest =>
    let (resp, db1) := serve env req db in
    let (resps, db2) := run rest db1 in
    (resp :: resps, db2)
  end.

End Service.

(* ------------------------------------------------------------------ *)
(** ** What the handlers may expect of the hashing utility *)

(** Modelled from the spec: the "credential-hashing and verification
    utility" ([hash_password], [verify_password] of [app.utils], not among
    the sources).  A password verifies against each of its own hashes. *)
Definition hash_round_trip `{AuthUtils} : Prop :=
  forall salt p, verify_password p (hash_password salt p) = true.


(* ------------------------------------------------------------------ *)
(** ** A small instance to run the service on

    Stand-ins for the collaborators, used to replay the tests and to
    exhibit concrete stores: hashes tag the password with one of two
    salts, tokens carry the subject in the clear, numbers are reduced
    fractions. *)

Module Reference.

Definition has_at (s : string) : bool :=
  match index 0 "@" s with
  | Some (S _) => true
  | _ => false
  end.

#[export] Instance pydantic : Pydantic := {| EmailStr := has_at |}.

Definition tag (salt : bool) : string := if salt then "a$" else "b$".

#[export] Instance utils : AuthUtils := {|
  Salt := bool;
  hash_password := fun salt p => tag salt ++ p;
  verify_password := fun p h => (h =? tag true ++ p)%string || (h =? tag false ++ p)%string;
  create_access_token := fun _ data =>
    match data with
    | (_, sub) :: _ => "jwt:" ++ sub
    | [] => "jwt:"
    end;
  decode_access_token := fun _ token =>
    if prefix "jwt:" token
    then Some (substring 4 (String.length token - 4) token)
    else None
|}.

#[export] Instance rationals : Numeric := {|
  num := Q;
  num_add := fun a b => Qred (a + b);
  num_sub := fun a b => Qred (a - b);
  num_mul := fun a b => Qred (a * b);
  num_div := fun a b => Qred (a / b);
  is_zero := fun a => (Qnum a =? 0)%Z
|}.

Definition env0 : Ambient := mkAmbient 1700000000%Z true.
Definition env1 : Ambient := mkAmbient 1700000060%Z false.

Definition bearer (username : string) : option string :=
  Some ("jwt:" ++ username).

Definition statuses (r : list Response * Db) : list nat :=
  map status (fst r).

(** A two-byte character (e with an acute accent, bytes 195 and 169),
    and a string of copies of a string. *)
Definition e_acute : string := String "195" (String "169" "").

Fixpoint copies (n : nat) (s : string) : string :=
  match n with
  | O => ""
  | S n' => s ++ copies n' s
  end.

(** Two accounts and the stores they lead to. *)
Definition alice : UserCreate.t :=
  UserCreate.Build "alice" "alice@example.com" "securepass123".

Definition bobby : UserCreate.t :=
  UserCreate.Build "bobby" "bob@example.com" "hunter2hunter2".

Definition alice_row : User.t :=
  User.Build 1 "alice" "alice@example.com" "a$securepass123" 1700000000%Z.

Definition db_alice : Db :=
  snd (run [(env0, PostRegister alice)] empty_db).

Definition db_two : Db :=
  snd (run [(env0, PostRegister alice);
            (env0, PostRegister bobby);
            (env1, PostCalculation (bearer "alice")
                     (CalculationCreate.Build (10#1)%Q (2#1)%Q Divide));
            (env1, PostCalculation (bearer "bobby")
                     (CalculationCreate.Build (7#1)%Q (8#1)%Q Multiply))]
           empty_db).

Definition alice_quotient : Calculation.t :=
  Calculation.Build 1 (10#1)%Q (2#1)%Q Divide (5#1)%Q 1.

(** A registration that repeats both the username and the email of
    [alice]. *)
Definition alice_again : UserCreate.t :=
  UserCreate.Build "alice" "alice@example.com" "anotherpass456".


Definition new_password : PasswordChange.t :=
  PasswordChange.Build "securepass123" "newsecure123".

(** A profile update that takes a new username, one that repeats the
    stored username and email, and a registration under the username the
    first one gave up. *)
Definition rename : UserProfileUpdate.t :=
  UserProfileUpdate.Build (Some "alicia") None.

Definition new_email : UserProfileUpdate.t :=
  UserProfileUpdate.Build None (Some "alice.new@example.com").

Definition keep_names : UserProfileUpdate.t :=
  UserProfileUpdate.Build (Some "alice") (Some "alice@example.com").

Definition alice_returns : UserCreate.t :=
  UserCreate.Build "alice" "new@example.com" "freshpass999".

Definition alice_login : UserLogin.t :=
  UserLogin.Build "alice" "securepass123".

Definition bobby_login : UserLogin.t :=
  UserLogin.Build "bobby" "hunter2hunter2".

End Reference.

(* ------------------------------------------------------------------ *)
(** ** Invariants of the store *)

Section Invariants.
Context {V : Pydantic} {U : AuthUtils} {N : Numeric}.

(** The unique columns of [users] and the discipline of its key. *)
Record users_ok (db : Db) : Prop := {
  ok_usernames : NoDup (map User.username (users db));
  ok_emails : NoDup (map User.email (users db));
  ok_user_ids : NoDup (map User.id (users db));
  ok_user_seq : forall u, In u (users db) -> User.id u < user_seq db
}.

(** Each stored calculation holds the result of its own operation, never
    a division by zero, under a key of its own. *)
Record calculations_ok (db : Db) : Prop := {
  ok_results : forall c, In c (calculations db) ->
    Calculation.result c
    = compute (Calculation.type c) (Calculation.a c) (Calculation.b c);
  ok_divisors : forall c, In c (calculations db) ->
    division_by_zero (Calculation.type c) (Calculation.b c) = false;
  ok_calculation_ids : NoDup (map Calculation.id (calculations db));
  ok_calculation_seq : forall c, In c (calculations db) ->
    Calculation.id c < calculation_seq db
}.

(** The bearer token of a request on the calculation routes. *)
Definition calculation_request (req : Request) : option (option string) :=
  match req with
  | PostCalculation auth _ => Some auth
  | GetCalculations auth => Some auth
  | GetCalculation auth _ => Some auth
  | PutCalculation auth _ _ => Some auth
  | DeleteCalculation auth _ => Some auth
  | _ => None
  end.

(** The routes whose [response_model] renders a user. *)
Definition renders_user (req : Request) : bool :=
  match req with
  | PostRegister _ | GetMe _ | PutMe _ _ => true
  | _ => false
  end.

(** A store with every password hash blanked: what is left is what two
    stores share when they differ in hashes only. *)
Definition without_hashes (db : Db) : Db :=
  set_users (map (User.with_password_hash "") (users db)) db.

Definition json_keys (j : Json) : list string :=
  match j with
  | JObject fields => map fst fields
  | _ => []
  end.

Definition json_field (k : string) (j : Json) : option Json :=
  match j with
  | JObject fields =>
    option_map snd (find (fun kv => (fst kv =? k)%string) fields)
  | _ => None
  end.

(** [update] asks for a username (an email) that differs from the
    current user's and that some stored user already has. *)
Definition changes_to_taken_username (update : UserProfileUpdate.t)
  (current_user : User.t) (db : Db) : Prop :=
  exists n, UserProfileUpdate.username update = Some n
    /\ n <> User.username current_user
    /\ In n (map User.username (users db)).

(** Every stored username and email is one the schemas accept. *)
Definition stored_fields_valid (db : Db) : Prop :=
  forall u, In u (users db) ->
    length_between 3 50 (User.username u) = true
    /\ EmailStr (User.email u) = true.

Definition changes_to_taken_email (update : UserProfileUpdate.t)
  (current_user : User.t) (db : Db) : Prop :=
  exists e, UserProfileUpdate.email update = Some e
    /\ e <> User.email current_user
    /\ In e (map User.email (users db)).

End Invariants.

(* ------------------------------------------------------------------ *)
(** ** Lists and lookups *)

Section Lookups.
Context {V : Pydantic} {U : AuthUtils} {N : Numeric}.

Lemma is_some_find {A} (p : A -> bool) (l : list A) :
  is_some (find p l) = true <-> exists x, In x l /\ p x = true.
Proof.
  split.
  - destruct (find p l) as [x|] eqn:E; [|discriminate].
    intros _. exists x. now apply find_some in E.
  - intros [x [Hin Hp]].
    destruct (find p l) eqn:E; [reflexivity|].
    now rewrite (find_none _ _ E x Hin) in Hp.
Qed.

Lemma first_by_username_in n db u :
  first_by_username n db = Some u -> In u (users db) /\ User.username u = n.
Proof.
  unfold first_by_username. intros E. apply find_some in E.
  destruct E as [Hin E]. split; [exact Hin|]. now apply String.eqb_eq.
Qed.

Lemma first_by_email_in e db u :
  first_by_email e db = Some u -> In u (users db) /\ User.email u = e.
Proof.
  unfold first_by_email. intros E. apply find_some in E.
  destruct E as [Hin E]. split; [exact Hin|]. now apply String.eqb_eq.
Qed.

Lemma first_by_username_none n db :
  first_by_username n db = None <-> ~ In n (map User.username (users db)).
Proof.
  unfold first_by_username. split.
  - intros E Hin. apply in_map_iff in Hin. destruct Hin as [u [Hu Hin]].
    pose proof (find_none _ _ E u Hin) as H. cbn in H.
    rewrite Hu, String.eqb_refl in H. discriminate.
  - intros Hn. destruct (find _ _) as [u|] eqn:E; [|reflexivity].
    apply find_some in E. destruct E as [Hin E]. apply String.eqb_eq in E.
    exfalso. apply Hn. apply in_map_iff. now exists u.
Qed.

Lemma first_by_email_none e db :
  first_by_email e db = None <-> ~ In e (map User.email (users db)).
Proof.
  unfold first_by_email. split.
  - intros E Hin. apply in_map_iff in Hin. destruct Hin as [u [Hu Hin]].
    pose proof (find_none _ _ E u Hin) as H. cbn in H.
    rewrite Hu, String.eqb_refl in H. discriminate.
  - intros Hn. destruct (find _ _) as [u|] eqn:E; [|reflexivity].
    apply find_some in E. destruct E as [Hin E]. apply String.eqb_eq in E.
    exfalso. apply Hn. apply in_map_iff. now exists u.
Qed.

(** With unique values of [f], the first row found is the only one. *)
Lemma find_unique {A} (f : A -> string) (l : list A) (x : A) :
  NoDup (map f l) -> In x l ->
  find (fun y => (f y =? f x)%string) l = Some x.
Proof.
  induction l as [|y l IH]; cbn; intros Hnd Hin; [contradiction|].
  inversion Hnd as [|? ? Hny Hnd']; subst.
  destruct (String.eqb_spec (f y) (f x)) as [E|E].
  - destruct Hin as [->|Hin]; [reflexivity|].
    exfalso. apply Hny. rewrite E. now apply in_map.
  - destruct Hin as [->|Hin]; [congruence|]. now apply IH.
Qed.

Lemma first_by_username_unique db u :
  NoDup (map User.username (users db)) -> In u (users db) ->
  first_by_username (User.username u) db = Some u.
Proof. apply find_unique. Qed.

End Lookups.

(* ------------------------------------------------------------------ *)
(** ** Writing rows back *)

Section Commit.
Context {V : Pydantic} {U : AuthUtils} {N : Numeric}.

Lemma NoDup_snoc {A} (l : list A) (x : A) :
  NoDup l -> ~ In x l -> NoDup (l ++ [x]).
Proof.
  induction l as [|y l IH]; cbn; intros Hnd Hx.
  - constructor; [intros []|constructor].
  - inversion Hnd as [|? ? Hy Hnd']; subst. constructor.
    + rewrite in_app_iff. cbn. intros [H|[H|[]]]; [now apply Hy|].
      apply Hx. now left.
    + apply IH; [exact Hnd'|]. intros H. apply Hx. now right.
Qed.

Lemma map_key_commit {A} (key : A -> nat) (u : A) (l : list A) :
  map key (map (fun r => if key r =? key u then u else r) l) = map key l.
Proof.
  induction l as [|r l IH]; cbn; [reflexivity|].
  rewrite IH. destruct (Nat.eqb_spec (key r) (key u)) as [E|E];
    now rewrite ?E.
Qed.

Lemma commit_absent {A} (key : A -> nat) (u : A) (l : list A) :
  ~ In (key u) (map key l) ->
  map (fun r => if key r =? key u then u else r) l = l.
Proof.
  induction l as [|r l IH]; cbn; intros Hn; [reflexivity|].
  destruct (Nat.eqb_spec (key r) (key u)) as [E|E].
  - exfalso. apply Hn. now left.
  - rewrite IH; [reflexivity|]. intros H. apply Hn. now right.
Qed.

Lemma in_commit {A} (key : A -> nat) (u r : A) (l : list A) :
  In r (map (fun r => if key r =? key u then u else r) l) ->
  r = u \/ In r l.
Proof.
  rewrite in_map_iff. intros [x [E Hin]].
  destruct (key x =? key u); subst; auto.
Qed.

(** Overwriting the row of [cu] keeps a column unique when the new row
    either keeps the column's value or brings one no row has. *)
Lemma NoDup_map_commit {A B} (key : A -> nat) (f : A -> B) (l : list A)
  (cu cu' : A) :
  NoDup (map key l) -> NoDup (map f l) -> In cu l ->
  key cu' = key cu ->
  (f cu' = f cu \/ ~ In (f cu') (map f l)) ->
  NoDup (map f (map (fun r => if key r =? key cu' then cu' else r) l)).
Proof.
  intros Hid Hf Hin Eid Hnew.
  induction l as [|x l IH]; cbn; [constructor|].
  cbn in Hid, Hf. inversion Hid as [|? ? Hxid Hid']; subst.
  inversion Hf as [|? ? Hxf Hf']; subst.
  destruct (Nat.eqb_spec (key x) (key cu')) as [E|E].
  - assert (cu = x) as ->.
    { destruct Hin as [H|H]; [now symmetry|].
      exfalso. apply Hxid. rewrite E, Eid. now apply in_map. }
    rewrite commit_absent by now rewrite <- E.
    constructor; [|exact Hf'].
    destruct Hnew as [H|H]; [now rewrite H|].
    intros H'. apply H. now right.
  - assert (In cu l) as Hin'.
    { destruct Hin as [H|H]; [|exact H]. subst. congruence. }
    constructor.
    + intros H. apply in_map_iff in H. destruct H as [r [Er Hr]].
      apply in_commit in Hr. destruct Hr as [->|Hr].
      * destruct Hnew as [H|H].
        -- apply Hxf. rewrite <- Er, H. now apply in_map.
        -- apply H. left. now symmetry.
      * apply Hxf. rewrite <- Er. now apply in_map.
    + apply IH; try assumption.
      destruct Hnew as [H|H]; [now left|right].
      intros H'. apply H. now right.
Qed.

Lemma find_commit {A} (key : A -> nat) (cu cu' : A) (l : list A) :
  In cu l -> key cu' = key cu ->
  find (fun r => key r =? key cu')
       (map (fun r => if key r =? key cu' then cu' else r) l)
  = Some cu'.
Proof.
  intros Hin Eid. induction l as [|x l IH]; cbn; [contradiction|].
  destruct (Nat.eqb_spec (key x) (key cu')) as [E|E].
  - now rewrite Nat.eqb_refl.
  - apply Nat.eqb_neq in E. rewrite E. apply IH.
    destruct Hin as [H|H]; [|exact H]. subst.
    apply Nat.eqb_neq in E. congruence.
Qed.

(** Dropping rows keeps a key column free of duplicates. *)
Lemma NoDup_keys_filter {A} (key : A -> nat) (keep : A -> bool)
  (rows : list A) :
  NoDup (map key rows) -> NoDup (map key (filter keep rows)).
Proof.
  intros Hnd. induction rows as [|x rows IH]; cbn; [constructor|].
  cbn in Hnd. inversion Hnd as [|? ? Hx Hnd']; subst.
  destruct (keep x); cbn; [|now apply IH].
  constructor; [|now apply IH].
  intros H. apply Hx. apply in_map_iff in H. destruct H as [y [E Hy]].
  apply filter_In in Hy. apply in_map_iff. exists y. tauto.
Qed.

Lemma refresh_commit (cu cu' : User.t) (db : Db) :
  In cu (users db) -> User.id cu' = User.id cu ->
  refresh cu' (commit_user cu' db) = cu'.
Proof.
  intros Hin Eid. unfold refresh, commit_user, set_users. cbn.
  now rewrite find_commit with (cu := cu).
Qed.

Lemma users_ok_commit (db : Db) (cu cu' : User.t) :
  users_ok db -> In cu (users db) -> User.id cu' = User.id cu ->
  (User.username cu' = User.username cu
   \/ ~ In (User.username cu') (map User.username (users db))) ->
  (User.email cu' = User.email cu
   \/ ~ In (User.email cu') (map User.email (users db))) ->
  users_ok (commit_user cu' db).
Proof.
  intros [Hn He Hi Hs] Hin Eid Hname Hmail.
  constructor; cbn.
  - now apply NoDup_map_commit with (cu := cu).
  - now apply NoDup_map_commit with (cu := cu).
  - now rewrite map_key_commit.
  - intros r Hr. apply in_commit in Hr. destruct Hr as [->|Hr].
    + rewrite Eid. now apply Hs.
    + now apply Hs.
Qed.

Lemma users_ok_same_users (db db' : Db) :
  users db' = users db -> user_seq db' = user_seq db ->
  users_ok db -> users_ok db'.
Proof.
  intros Eu Es [Hn He Hi Hs].
  constructor; rewrite ?Eu, ?Es; assumption.
Qed.

End Commit.

(* ------------------------------------------------------------------ *)
(** ** The user handlers, case by case *)

Section UserHandlers.
Context {V : Pydantic} {U : AuthUtils} {N : Numeric}.

Lemma truthy_length_between lo hi s :
  0 < lo -> length_between lo hi s = true -> truthy s = true.
Proof.
  unfold length_between, truthy. intros Hlo H.
  apply andb_true_iff in H. destruct H as [H _]. apply Nat.leb_le in H.
  destruct s; [cbn in H; lia|reflexivity].
Qed.

Lemma register_user_cases env user db :
  (first_by_email (UserCreate.email user) db <> None
   /\ register_user env user db
      = (Raise (mkHTTPException 400 "Email already registered"), db))
  \/ (first_by_email (UserCreate.email user) db = None
      /\ first_by_username (UserCreate.username user) db <> None
      /\ register_user env user db
         = (Raise (mkHTTPException 400 "Username already taken"), db))
  \/ (first_by_email (UserCreate.email user) db = None
      /\ first_by_username (UserCreate.username user) db = None
      /\ let new_user :=
           User.Build (user_seq db) (UserCreate.username user)
             (UserCreate.email user)
             (hash_password (entropy env) (UserCreate.password user))
             (now env) in
         register_user env user db = (Return new_user, add_user new_user db)).
Proof.
  unfold register_user.
  destruct (first_by_email _ db) eqn:Ee; [left; split; [discriminate|reflexivity]|].
  destruct (first_by_username _ db) eqn:En.
  - right; left. repeat split; discriminate.
  - right; right. repeat split.
Qed.

(** What a successful profile update leaves: the row [cu'] written back
    agrees with the current user except in the columns the body asked
    for, and a column that changed took a value no row held. *)
Lemma update_current_user_cases env update db cu :
  (exists d, (d = "Username already taken" \/ d = "Email already registered")
     /\ update_current_user env update db cu
        = (Raise (mkHTTPException 400 d), db))
  \/ (exists cu',
        update_current_user env update db cu
        = (Return (UserProfileResponse.Build
                     (refresh cu' (commit_user cu' db))
                     (match UserProfileUpdate.username update with
                      | Some n =>
                        if truthy n
                        then Some (create_access_token (now env)
                               [("sub", User.username
                                          (refresh cu' (commit_user cu' db)))])
                        else None
                      | None => None
                      end)
                     "bearer"),
           commit_user cu' db)
        /\ User.id cu' = User.id cu
        /\ User.password_hash cu' = User.password_hash cu
        /\ User.created_at cu' = User.created_at cu
        /\ User.username cu'
           = match UserProfileUpdate.username update with
             | Some n => if truthy n then n else User.username cu
             | None => User.username cu
             end
        /\ User.email cu'
           = match UserProfileUpdate.email update with
             | Some e => if truthy e then e else User.email cu
             | None => User.email cu
             end
        /\ (User.username cu' = User.username cu
            \/ ~ In (User.username cu') (map User.username (users db)))
        /\ (User.email cu' = User.email cu
            \/ ~ In (User.email cu') (map User.email (users db)))).
Proof.
  unfold update_current_user.
  destruct update as [[n|] [e|]]; cbn.
  all: repeat match goal with
       | |- context [truthy ?s] => destruct (truthy s) eqn:?; cbn
       | |- context [(?x =? ?y)%string] =>
         destruct (String.eqb_spec x y); cbn
       | |- context [first_by_username ?n ?d] =>
         destruct (first_by_username n d) eqn:?; cbn
       | |- context [first_by_email ?e ?d] =>
         destruct (first_by_email e d) eqn:?; cbn
       end.
  all: try (left; eexists; split; [|reflexivity]; auto; fail).
  all: right; eexists; split; [reflexivity|]; cbn.
  all: repeat split; subst; auto.
  all: try (right; now apply first_by_username_none).
  all: try (right; now apply first_by_email_none).
Qed.

Lemma get_current_user_in env auth db u :
  get_current_user env auth db = Return u -> In u (users db).
Proof.
  unfold get_current_user.
  destruct auth as [token|]; [|discriminate].
  destruct (decode_access_token _ token) as [sub|]; [|discriminate].
  destruct (first_by_username sub db) as [r|] eqn:E; [|discriminate].
  intros [= <-]. now apply first_by_username_in in E.
Qed.

Lemma get_current_user_401 env auth db e :
  get_current_user env auth db = Raise e -> status_code e = 401.
Proof.
  unfold get_current_user.
  destruct auth as [token|]; [|now intros [= <-]].
  destruct (decode_access_token _ token) as [sub|]; [|now intros [= <-]].
  destruct (first_by_username sub db); [discriminate|now intros [= <-]].
Qed.

End UserHandlers.

(* ------------------------------------------------------------------ *)
(** ** Every request keeps the invariants *)

Section Reachability.
Context {V : Pydantic} {U : AuthUtils} {N : Numeric}.

Lemma snd_respond {A} ok (render : A -> Json) (r : Outcome A * Db) :
  snd (respond ok render r) = snd r.
Proof. unfold respond. now destruct (fst r). Qed.

Lemma register_user_users_ok env user db :
  users_ok db -> users_ok (snd (register_user env user db)).
Proof.
  intros Hok.
  destruct (register_user_cases env user db)
    as [[_ ->]|[[_ [_ ->]]|[He [Hn ->]]]]; try exact Hok.
  destruct Hok as [Hnames Hmails Hids Hseq].
  apply first_by_email_none in He. apply first_by_username_none in Hn.
  constructor; cbn.
  - rewrite map_app. now apply NoDup_snoc.
  - rewrite map_app. now apply NoDup_snoc.
  - rewrite map_app. apply NoDup_snoc; [exact Hids|].
    intros H. apply in_map_iff in H. destruct H as [u [E Hu]].
    apply Hseq in Hu. cbn in E. lia.
  - intros u Hu. apply in_app_iff in Hu. destruct Hu as [Hu|[<-|[]]].
    + apply Hseq in Hu. lia.
    + cbn. lia.
Qed.

Lemma update_current_user_users_ok env update db cu :
  users_ok db -> In cu (users db) ->
  users_ok (snd (update_current_user env update db cu)).
Proof.
  intros Hok Hin.
  destruct (update_current_user_cases env update db cu)
    as [[d [_ ->]]|[cu' [-> [Eid [_ [_ [_ [_ [Hn He]]]]]]]]]; [exact Hok|].
  cbn. now apply users_ok_commit with (cu := cu).
Qed.

Lemma change_password_users_ok env payload db cu :
  users_ok db -> In cu (users db) ->
  users_ok (snd (change_password env payload db cu)).
Proof.
  intros Hok Hin. unfold change_password.
  destruct (negb _); [exact Hok|]. cbn.
  apply users_ok_commit with (cu := cu); auto.
Qed.

Lemma create_calculation_users calculation db u :
  users (snd (create_calculation calculation db u)) = users db
  /\ user_seq (snd (create_calculation calculation db u)) = user_seq db.
Proof. unfold create_calculation. now destruct (division_by_zero _ _). Qed.

Lemma update_calculation_users calculation_id update db u :
  users (snd (update_calculation calculation_id update db u)) = users db
  /\ user_seq (snd (update_calculation calculation_id update db u))
     = user_seq db.
Proof.
  unfold update_calculation.
  destruct (first_owned _ _ _); [|now split].
  now destruct (division_by_zero _ _).
Qed.

Lemma delete_calculation_users calculation_id db u :
  users (snd (delete_calculation calculation_id db u)) = users db
  /\ user_seq (snd (delete_calculation calculation_id db u)) = user_seq db.
Proof. unfold delete_calculation. now destruct (first_owned _ _ _). Qed.

Lemma read_calculation_same calculation_id db u :
  snd (read_calculation calculation_id db u) = db.
Proof. unfold read_calculation. now destruct (first_owned _ _ _). Qed.

Lemma login_user_same env user db :
  snd (login_user env user db) = db.
Proof.
  unfold login_user. destruct (first_by_username _ _); [|reflexivity].
  now destruct (negb _).
Qed.

Ltac open_serve :=
  cbn [serve]; unfold authenticated;
  repeat match goal with
  | |- context [get_current_user ?e ?a ?d] =>
    let E := fresh "Hauth" in
    destruct (get_current_user e a d) eqn:E; cbn [snd fst]
  | |- context [if ?c then _ else _] => destruct c eqn:?; cbn [snd fst]
  end;
  rewrite ?snd_respond; cbn [snd fst].

Lemma serve_users_ok env req db :
  users_ok db -> users_ok (snd (serve env req db)).
Proof.
  intros Hok. destruct req; open_serve; try exact Hok.
  - now apply register_user_users_ok.
  - now rewrite login_user_same.
  - apply update_current_user_users_ok; [exact Hok|].
    eapply get_current_user_in; eassumption.
  - apply change_password_users_ok; [exact Hok|].
    eapply get_current_user_in; eassumption.
  - match goal with
    | |- context [create_calculation ?c ?d ?u] =>
      destruct (create_calculation_users c d u)
    end.
    eapply users_ok_same_users; eassumption.
  - now rewrite read_calculation_same.
  - match goal with
    | |- context [update_calculation ?i ?p ?d ?u] =>
      destruct (update_calculation_users i p d u)
    end.
    eapply users_ok_same_users; eassumption.
  - match goal with
    | |- context [delete_calculation ?i ?d ?u] =>
      destruct (delete_calculation_users i d u)
    end.
    eapply users_ok_same_users; eassumption.
Qed.

Lemma reachable_users_ok db : reachable db -> users_ok db.
Proof.
  induction 1 as [|env req db _ IH].
  - constructor; cbn; [constructor ..|intros u []].
  - now apply serve_users_ok.
Qed.

Lemma first_owned_in calculation_id u db c :
  first_owned calculation_id u db = Some c ->
  In c (calculations db) /\ Calculation.id c = calculation_id
  /\ Calculation.user_id c = User.id u.
Proof.
  unfold first_owned, owned_by. intros E. apply find_some in E.
  destruct E as [Hin E]. apply andb_true_iff in E. destruct E as [E1 E2].
  apply Nat.eqb_eq in E1, E2. auto.
Qed.

Lemma calculations_ok_same (db db' : Db) :
  calculations db' = calculations db ->
  calculation_seq db' = calculation_seq db ->
  calculations_ok db -> calculations_ok db'.
Proof.
  intros Ec Es [Hr Hd Hi Hs].
  constructor; rewrite ?Ec, ?Es; assumption.
Qed.

Lemma create_calculation_calculations_ok calculation db u :
  calculations_ok db ->
  calculations_ok (snd (create_calculation calculation db u)).
Proof.
  intros Hok. unfold create_calculation.
  destruct (division_by_zero _ _) eqn:Hz; [exact Hok|].
  destruct Hok as [Hr Hd Hi Hs]. cbn.
  constructor; cbn.
  - intros c Hc. apply in_app_iff in Hc.
    destruct Hc as [Hc|[<-|[]]]; [now apply Hr|reflexivity].
  - intros c Hc. apply in_app_iff in Hc.
    destruct Hc as [Hc|[<-|[]]]; [now apply Hd|exact Hz].
  - rewrite map_app. apply NoDup_snoc; [exact Hi|].
    intros H. apply in_map_iff in H. destruct H as [c [E Hc]].
    apply Hs in Hc. cbn in E. lia.
  - intros c Hc. apply in_app_iff in Hc. destruct Hc as [Hc|[<-|[]]].
    + apply Hs in Hc. lia.
    + cbn. lia.
Qed.

Lemma update_calculation_cases calculation_id update db u :
  (first_owned calculation_id u db = None
   /\ update_calculation calculation_id update db u
      = (Raise (mkHTTPException 404 "Calculation not found"), db))
  \/ (exists c, first_owned calculation_id u db = Some c
       /\ division_by_zero
            (or_else (CalculationUpdate.type update) (Calculation.type c))
            (or_else (CalculationUpdate.b update) (Calculation.b c)) = true
       /\ update_calculation calculation_id update db u
          = (Raise (mkHTTPException 422 "Division by zero is not allowed"), db))
  \/ (exists c c', first_owned calculation_id u db = Some c
       /\ update_calculation calculation_id update db u
          = (Return c', commit_calculation c' db)
       /\ Calculation.id c' = Calculation.id c
       /\ Calculation.user_id c' = Calculation.user_id c
       /\ Calculation.a c' = or_else (CalculationUpdate.a update) (Calculation.a c)
       /\ Calculation.b c' = or_else (CalculationUpdate.b update) (Calculation.b c)
       /\ Calculation.type c'
          = or_else (CalculationUpdate.type update) (Calculation.type c)
       /\ Calculation.result c'
          = compute (Calculation.type c') (Calculation.a c') (Calculation.b c')
       /\ division_by_zero (Calculation.type c') (Calculation.b c') = false).
Proof.
  unfold update_calculation.
  destruct (first_owned _ _ _) as [c|]; [|now left].
  destruct (division_by_zero _ _) eqn:Hz.
  - right; left. now exists c.
  - right; right. exists c. eexists. split; [reflexivity|].
    split; [reflexivity|]. cbn. now repeat split.
Qed.

Lemma update_calculation_calculations_ok calculation_id update db u :
  calculations_ok db ->
  calculations_ok (snd (update_calculation calculation_id update db u)).
Proof.
  intros Hok.
  destruct (update_calculation_cases calculation_id update db u)
    as [[_ ->]|[[c [_ [_ ->]]]|[c [c' [Ec [-> [Ei [_ [_ [_ [_ [Er Hz]]]]]]]]]]]];
    try exact Hok.
  apply first_owned_in in Ec. destruct Ec as [Hin _].
  destruct Hok as [Hr Hd Hi Hs].
  unfold commit_calculation, set_calculations.
  constructor; cbn [calculations calculation_seq snd].
  - intros r Hr'. apply in_commit in Hr'.
    destruct Hr' as [->|Hr']; [exact Er|now apply Hr].
  - intros r Hr'. apply in_commit in Hr'.
    destruct Hr' as [->|Hr']; [exact Hz|now apply Hd].
  - now rewrite map_key_commit.
  - intros r Hr'. apply in_commit in Hr'.
    destruct Hr' as [->|Hr']; [rewrite Ei|]; now apply Hs.
Qed.

Lemma delete_calculation_calculations_ok calculation_id db u :
  calculations_ok db ->
  calculations_ok (snd (delete_calculation calculation_id db u)).
Proof.
  intros Hok. unfold delete_calculation.
  destruct (first_owned _ _ _) as [c|]; [|exact Hok].
  destruct Hok as [Hr Hd Hi Hs]. cbn.
  constructor; cbn.
  - intros r Hr'. apply filter_In in Hr'. now apply Hr.
  - intros r Hr'. apply filter_In in Hr'. now apply Hd.
  - now apply NoDup_keys_filter.
  - intros r Hr'. apply filter_In in Hr'. now apply Hs.
Qed.

Lemma register_user_calculations env user db :
  calculations (snd (register_user env user db)) = calculations db
  /\ calculation_seq (snd (register_user env user db)) = calculation_seq db.
Proof.
  unfold register_user. destruct (first_by_email _ _); [now split|].
  now destruct (first_by_username _ _).
Qed.

Lemma update_current_user_calculations env update db cu :
  calculations (snd (update_current_user env update db cu)) = calculations db
  /\ calculation_seq (snd (update_current_user env update db cu))
     = calculation_seq db.
Proof.
  destruct (update_current_user_cases env update db cu)
    as [[d [_ ->]]|[cu' [-> _]]]; now split.
Qed.

Lemma change_password_calculations env payload db cu :
  calculations (snd (change_password env payload db cu)) = calculations db
  /\ calculation_seq (snd (change_password env payload db cu))
     = calculation_seq db.
Proof. unfold change_password. now destruct (negb _). Qed.

Lemma serve_calculations_ok env req db :
  calculations_ok db -> calculations_ok (snd (serve env req db)).
Proof.
  intros Hok. destruct req; open_serve; try exact Hok.
  - destruct (register_user_calculations env user db).
    eapply calculations_ok_same; eassumption.
  - now rewrite login_user_same.
  - match goal with
    | |- context [update_current_user ?e ?p ?d ?u] =>
      destruct (update_current_user_calculations e p d u)
    end.
    eapply calculations_ok_same; eassumption.
  - match goal with
    | |- context [change_password ?e ?p ?d ?u] =>
      destruct (change_password_calculations e p d u)
    end.
    eapply calculations_ok_same; eassumption.
  - now apply create_calculation_calculations_ok.
  - now rewrite read_calculation_same.
  - now apply update_calculation_calculations_ok.
  - now apply delete_calculation_calculations_ok.
Qed.

Lemma reachable_calculations_ok db : reachable db -> calculations_ok db.
Proof.
  induction 1 as [|env req db _ IH].
  - constructor; cbn; try (intros c []). constructor.
  - now apply serve_calculations_ok.
Qed.

End Reachability.

(* ------------------------------------------------------------------ *)
(** ** Registration and login *)

Unset Implicit Arguments.

Section Accounts.
Context {V : Pydantic} {U : AuthUtils} {N : Numeric}.

(** C8.  When both the email and the username of a registration are
    already stored, the email lookup, which comes first, decides: the
    handler raises 400 "Email already registered", not "Username already
    taken", and the store is as it was. *)
Theorem register_user_email_conflict_first env user db :
  In (UserCreate.email user) (map User.email (users db)) ->
  In (UserCreate.username user) (map User.username (users db)) ->
  register_user env user db
  = (Raise (mkHTTPException 400 "Email already registered"), db)
  /\ fst (register_user env user db)
     <> Raise (mkHTTPException 400 "Username already taken").
Proof.
  intros He _.
  destruct (register_user_cases env user db)
    as [[_ E]|[[Hn _]|[Hn _]]].
  - rewrite E. split; [reflexivity|]. cbn. intros [=].
  - now apply first_by_email_none in Hn.
  - now apply first_by_email_none in Hn.
Qed.

(** C2.  In a reachable store, login returns the token response
    (token_type "bearer", access token created for the subject named by
    the username) exactly when some stored user has the given username
    and the given password verifies against that user's hash; otherwise
    it raises 401 "Invalid credentials".  The store is unchanged either
    way. *)
Theorem login_user_iff_credentials env user db :
  reachable db ->
  let credentials_ok :=
    exists u, In u (users db)
      /\ User.username u = UserLogin.username user
      /\ verify_password (UserLogin.password user) (User.password_hash u) = true in
  (credentials_ok ->
   login_user env user db
   = (Return (Token.Build
                (create_access_token (now env)
                   [("sub", UserLogin.username user)])
                "bearer"), db))
  /\ (~ credentials_ok ->
      login_user env user db
      = (Raise (mkHTTPException 401 "Invalid credentials"), db))
  /\ (forall t, fst (login_user env user db) = Return t -> credentials_ok)
  /\ snd (login_user env user db) = db.
Proof.
  intros Hr ok. pose proof (reachable_users_ok Hr) as [Hnames _ _ _].
  unfold login_user.
  destruct (first_by_username _ db) as [db_user|] eqn:E.
  - destruct (first_by_username_in _ _ E) as [Hin Hname].
    destruct (verify_password _ (User.password_hash db_user)) eqn:Hv; cbn.
    + repeat split.
      * intros _. now rewrite Hname.
      * intros Hno. exfalso. apply Hno. now exists db_user.
      * intros _ _. now exists db_user.
    + assert (~ ok) as Hno.
      { intros [u [Hu [Eu Hvu]]].
        rewrite <- Eu in E.
        rewrite (first_by_username_unique _ _ Hnames Hu) in E.
        injection E as ->. congruence. }
      repeat split; try easy.
  - assert (~ ok) as Hno.
    { intros [u [Hu [Eu _]]]. apply first_by_username_none in E.
      apply E. rewrite <- Eu. now apply in_map. }
    cbn. repeat split; try easy.
Qed.

Lemma in_emails_first db e :
  In e (map User.email (users db)) -> first_by_email e db <> None.
Proof. intros Hin E. now apply first_by_email_none in E. Qed.

Lemma in_usernames_first db n :
  In n (map User.username (users db)) -> first_by_username n db <> None.
Proof. intros Hin E. now apply first_by_username_none in E. Qed.

Lemma is_some_true {A} (o : option A) : o <> None -> is_some o = true.
Proof. destruct o; [reflexivity|congruence]. Qed.

(** C3, as the handlers have it.  In every reachable store usernames and
    emails are unique.  Registration with a stored email raises 400
    "Email already registered"; with a fresh email and a stored username
    it raises 400 "Username already taken"; a profile update (of a valid
    body) that changes the username or the email to one already stored
    raises 400.  Each rejection leaves the store as it was. *)
Theorem unique_usernames_and_emails db :
  reachable db ->
  NoDup (map User.username (users db))
  /\ NoDup (map User.email (users db))
  /\ (forall env user,
        In (UserCreate.email user) (map User.email (users db)) ->
        register_user env user db
        = (Raise (mkHTTPException 400 "Email already registered"), db))
  /\ (forall env user,
        ~ In (UserCreate.email user) (map User.email (users db)) ->
        In (UserCreate.username user) (map User.username (users db)) ->
        register_user env user db
        = (Raise (mkHTTPException 400 "Username already taken"), db))
  /\ (forall env update current_user,
        EmailStr "" = false ->
        UserProfileUpdate.valid update = true ->
        changes_to_taken_username update current_user db
        \/ changes_to_taken_email update current_user db ->
        exists d,
          update_current_user env update db current_user
          = (Raise (mkHTTPException 400 d), db)).
Proof.
  intros Hr. destruct (reachable_users_ok Hr) as [Hnames Hmails _ _].
  split; [exact Hnames|]. split; [exact Hmails|].
  split; [|split].
  - intros env user He.
    destruct (register_user_cases env user db) as [[_ E]|[[Hn _]|[Hn _]]];
      [exact E| |]; now apply first_by_email_none in Hn.
  - intros env user He Hn.
    destruct (register_user_cases env user db)
      as [[Hf _]|[[_ [_ E]]|[_ [Hf _]]]]; [|exact E|].
    + exfalso. apply Hf. now apply first_by_email_none.
    + now apply first_by_username_none in Hf.
  - intros env update cu Hempty Hvalid Htaken.
    unfold UserProfileUpdate.valid in Hvalid.
    apply andb_true_iff in Hvalid. destruct Hvalid as [Hvn Hve].
    unfold update_current_user.
    destruct Htaken as [[n [En [Hne Hin]]]|[e [Ee [Hne Hin]]]].
    + rewrite En in *.
      rewrite (@truthy_length_between 3 50 n) by (auto; lia).
      apply String.eqb_neq in Hne. rewrite Hne.
      rewrite (is_some_true _ (in_usernames_first _ _ Hin)). cbn.
      now eexists.
    + match goal with
      | |- context [if ?c then _ else _] => destruct c
      end; [now eexists|].
      rewrite Ee in *.
      assert (truthy e = true) as ->.
      { unfold truthy. destruct (String.eqb_spec e ""); [|reflexivity].
        subst. congruence. }
      apply String.eqb_neq in Hne. rewrite Hne.
      rewrite (is_some_true _ (in_emails_first _ _ Hin)). cbn.
      now eexists.
Qed.

(** Login of a user whose row is known. *)
Lemma login_user_known env q db u :
  NoDup (map User.username (users db)) -> In u (users db) ->
  login_user env (UserLogin.Build (User.username u) q) db
  = if verify_password q (User.password_hash u)
    then (Return (Token.Build
                    (create_access_token (now env) [("sub", User.username u)])
                    "bearer"), db)
    else (Raise (mkHTTPException 401 "Invalid credentials"), db).
Proof.
  intros Hnd Hin. unfold login_user. cbn.
  rewrite (first_by_username_unique _ _ Hnd Hin).
  now destruct (verify_password _ _).
Qed.

Lemma in_commit_user (cu cu' : User.t) (db : Db) :
  In cu (users db) -> User.id cu' = User.id cu ->
  In cu' (users (commit_user cu' db)).
Proof.
  intros Hin Eid. unfold commit_user, set_users. cbn.
  pose proof (@find_commit _ User.id cu cu' _ Hin Eid) as H.
  now apply find_some in H.
Qed.


(** X14.  With a hashing utility that round-trips, a user can log in
    with the password just registered; and a login under the new
    username is granted for exactly the passwords that verify against
    the hash the registration stored. *)
Theorem register_user_then_login env env' user db new_user db' :
  reachable db -> hash_round_trip ->
  register_user env user db = (Return new_user, db') ->
  login_user env'
    (UserLogin.Build (UserCreate.username user) (UserCreate.password user)) db'
  = (Return (Token.Build
               (create_access_token (now env')
                  [("sub", UserCreate.username user)])
               "bearer"), db')
  /\ (forall q,
        login_user env' (UserLogin.Build (UserCreate.username user) q) db'
        = if verify_password q (User.password_hash new_user)
          then (Return (Token.Build
                          (create_access_token (now env')
                             [("sub", UserCreate.username user)])
                          "bearer"), db')
          else (Raise (mkHTTPException 401 "Invalid credentials"), db')).
Proof.
  intros Hr Hrt Hreg.
  assert (users_ok (snd (register_user env user db))) as Hok'
    by (apply register_user_users_ok; now apply reachable_users_ok).
  destruct (register_user_cases env user db)
    as [[_ E]|[[_ [_ E]]|[_ [_ E]]]]; rewrite E in Hreg, Hok';
    try discriminate.
  cbn zeta in Hreg. injection Hreg as <- <-. cbn [snd] in Hok'.
  set (new_user := User.Build _ _ _ _ _) in *.
  assert (In new_user (users (add_user new_user db))) as Hin
    by (cbn; apply in_app_iff; right; now left).
  assert (forall q,
            login_user env' (UserLogin.Build (User.username new_user) q)
                       (add_user new_user db)
            = if verify_password q (User.password_hash new_user)
              then (Return (Token.Build
                              (create_access_token (now env')
                                 [("sub", User.username new_user)])
                              "bearer"), add_user new_user db)
              else (Raise (mkHTTPException 401 "Invalid credentials"),
                    add_user new_user db)) as Hlogin
    by (intros q; apply login_user_known; [apply Hok'|exact Hin]).
  cbn [User.username new_user] in Hlogin.
  split; [|exact Hlogin].
  rewrite Hlogin. cbn [User.password_hash new_user]. now rewrite Hrt.
Qed.

End Accounts.

(* ------------------------------------------------------------------ *)
(** ** What a response shows of a user *)

Section Disclosure.
Context {V : Pydantic} {U : AuthUtils} {N : Numeric}.

Lemma find_map_blind (p : User.t -> bool) (h : string) (l : list User.t) :
  (forall u, p (User.with_password_hash h u) = p u) ->
  find p (map (User.with_password_hash h) l)
  = option_map (User.with_password_hash h) (find p l).
Proof.
  intros Hp. induction l as [|x l IH]; cbn; [reflexivity|].
  rewrite Hp. now destruct (p x).
Qed.

Lemma first_by_username_without_hashes n db :
  first_by_username n (without_hashes db)
  = option_map (User.with_password_hash "") (first_by_username n db).
Proof. unfold first_by_username. cbn. now apply find_map_blind. Qed.

Lemma first_by_email_without_hashes e db :
  first_by_email e (without_hashes db)
  = option_map (User.with_password_hash "") (first_by_email e db).
Proof. unfold first_by_email. cbn. now apply find_map_blind. Qed.

Lemma is_some_option_map {A B} (found : option A) (g : A -> B) :
  is_some (option_map g found) = is_some found.
Proof. now destruct found. Qed.

Lemma get_current_user_without_hashes env auth db :
  get_current_user env auth (without_hashes db)
  = match get_current_user env auth db with
    | Return u => Return (User.with_password_hash "" u)
    | Raise e => Raise e
    end.
Proof.
  unfold get_current_user. destruct auth as [token|]; [|reflexivity].
  destruct (decode_access_token _ token) as [sub|]; [|reflexivity].
  rewrite first_by_username_without_hashes.
  now destruct (first_by_username sub db).
Qed.

Lemma register_user_response_blind env user db :
  fst (respond 201 (fun u => UserRead_json (UserRead.from_attributes u))
               (register_user env user (without_hashes db)))
  = fst (respond 201 (fun u => UserRead_json (UserRead.from_attributes u))
                 (register_user env user db)).
Proof.
  unfold register_user.
  rewrite first_by_email_without_hashes, first_by_username_without_hashes.
  destruct (first_by_email _ db); [reflexivity|].
  now destruct (first_by_username _ db).
Qed.

Lemma update_current_user_response_blind env update db u :
  In u (users db) ->
  fst (respond 200 UserProfileResponse_json
         (update_current_user env update (without_hashes db)
            (User.with_password_hash "" u)))
  = fst (respond 200 UserProfileResponse_json
           (update_current_user env update db u)).
Proof.
  intros Hin.
  assert (In (User.with_password_hash "" u) (users (without_hashes db)))
    as Hin' by (cbn; now apply in_map).
  unfold update_current_user.
  destruct update as [[n|] [e|]];
    cbn [UserProfileUpdate.username UserProfileUpdate.email
         User.username User.email User.with_password_hash].
  all: rewrite ?first_by_username_without_hashes,
         ?first_by_email_without_hashes, ?is_some_option_map.
  all: repeat match goal with
       | |- context [truthy ?s] => destruct (truthy s) eqn:?; cbn
       | |- context [(?x =? ?y)%string] =>
         destruct (String.eqb_spec x y); cbn
       | |- context [is_some ?o] => destruct o; cbn
       end.
  all: try reflexivity.
  all: unfold respond; cbn [fst snd].
  all: repeat (erewrite refresh_commit;
                 [|first [exact Hin|exact Hin']|reflexivity]).
  all: reflexivity.
Qed.

(** The rendering of a user, and the three routes that use it, against
    the hashes a store holds. *)
Lemma responses_blind_to_stored_hashes :
  (forall u,
     json_keys (UserRead_json (UserRead.from_attributes u))
     = ["id"; "username"; "email"; "created_at"])
  /\ (forall u h,
        UserRead_json (UserRead.from_attributes (User.with_password_hash h u))
        = UserRead_json (UserRead.from_attributes u))
  /\ (forall env auth db u,
        get_current_user env auth db = Return u ->
        fst (serve env (GetMe auth) db)
        = mkResponse 200 (UserRead_json (UserRead.from_attributes u)))
  /\ (forall env req db1 db2,
        renders_user req = true ->
        without_hashes db1 = without_hashes db2 ->
        fst (serve env req db1) = fst (serve env req db2)).
Proof.
  split; [reflexivity|]. split; [reflexivity|]. split.
  { intros env auth db u Hu. cbn. unfold authenticated. now rewrite Hu. }
  assert (forall env req db, renders_user req = true ->
            fst (serve env req (without_hashes db)) = fst (serve env req db))
    as Hblind.
  { intros env req db Hreq. destruct req; try discriminate; cbn [serve].
    - destruct (UserCreate.valid user); [|reflexivity].
      apply register_user_response_blind.
    - unfold authenticated. rewrite get_current_user_without_hashes.
      now destruct (get_current_user env authorization db).
    - unfold authenticated. rewrite get_current_user_without_hashes.
      destruct (get_current_user env authorization db) as [u|e] eqn:Hu;
        [|reflexivity].
      destruct (UserProfileUpdate.valid update); [|reflexivity].
      apply update_current_user_response_blind.
      now apply get_current_user_in in Hu. }
  intros env req db1 db2 Hreq Hsame.
  now rewrite <- (Hblind env req db1), <- (Hblind env req db2), Hsame.
Qed.

End Disclosure.

(* ------------------------------------------------------------------ *)
(** ** Calculations *)

Section Calculations.
Context {V : Pydantic} {U : AuthUtils} {N : Numeric}.

Lemma NoDup_map_same_key {A} (key : A -> nat) (l : list A) (x y : A) :
  NoDup (map key l) -> In x l -> In y l -> key x = key y -> x = y.
Proof.
  induction l as [|z l IH]; cbn; intros Hnd Hx Hy E; [contradiction|].
  inversion Hnd as [|? ? Hz Hnd']; subst.
  destruct Hx as [->|Hx], Hy as [->|Hy]; auto.
  - exfalso. apply Hz. rewrite E. now apply in_map.
  - exfalso. apply Hz. rewrite <- E. now apply in_map.
Qed.

Lemma filter_commit_others {A} (key : A -> nat) (p : A -> bool) (c' : A)
  (l : list A) :
  p c' = false ->
  (forall r, In r l -> key r = key c' -> p r = false) ->
  filter p (map (fun r => if key r =? key c' then c' else r) l) = filter p l.
Proof.
  intros Hc. induction l as [|x l IH]; cbn; intros Hl; [reflexivity|].
  rewrite IH by (intros r Hr; apply Hl; now right).
  destruct (Nat.eqb_spec (key x) (key c')) as [E|E]; [|reflexivity].
  now rewrite Hc, (Hl x (or_introl eq_refl) E).
Qed.

Lemma filter_filter_others {A} (p q : A -> bool) (l : list A) :
  (forall r, In r l -> q r = false -> p r = false) ->
  filter p (filter q l) = filter p l.
Proof.
  induction l as [|x l IH]; cbn; intros Hl; [reflexivity|].
  specialize (IH (fun r Hr => Hl r (or_intror Hr))).
  destruct (q x) eqn:Hq; cbn; rewrite IH; [reflexivity|].
  now rewrite (Hl x (or_introl eq_refl) Hq).
Qed.

Lemma create_calculation_cases calculation db u :
  (division_by_zero (CalculationCreate.type calculation)
                    (CalculationCreate.b calculation) = true
   /\ create_calculation calculation db u
      = (Raise (mkHTTPException 422 "Division by zero is not allowed"), db))
  \/ (division_by_zero (CalculationCreate.type calculation)
                       (CalculationCreate.b calculation) = false
      /\ let c :=
           Calculation.Build (calculation_seq db)
             (CalculationCreate.a calculation) (CalculationCreate.b calculation)
             (CalculationCreate.type calculation)
             (compute (CalculationCreate.type calculation)
                      (CalculationCreate.a calculation)
                      (CalculationCreate.b calculation))
             (User.id u) in
         create_calculation calculation db u = (Return c, add_calculation c db)).
Proof.
  unfold create_calculation.
  destruct (division_by_zero _ _); [left|right]; now split.
Qed.



(** C4.  Creating a Divide calculation with a zero divisor, or updating
    a calculation so that it would be a Divide with a zero divisor, is
    refused by the guard with 422 and a detail that begins "Division by
    zero"; the store is as it was.  In a reachable store no Divide
    calculation has a zero divisor, so no stored quotient was taken by
    zero. *)
Theorem division_by_zero_guard db :
  reachable db ->
  (forall calculation u,
     CalculationCreate.type calculation = Divide ->
     is_zero (CalculationCreate.b calculation) = true ->
     create_calculation calculation db u
     = (Raise (mkHTTPException 422 "Division by zero is not allowed"), db))
  /\ (forall calculation_id update u c,
        first_owned calculation_id u db = Some c ->
        or_else (CalculationUpdate.type update) (Calculation.type c) = Divide ->
        is_zero (or_else (CalculationUpdate.b update) (Calculation.b c)) = true ->
        update_calculation calculation_id update db u
        = (Raise (mkHTTPException 422 "Division by zero is not allowed"), db))
  /\ prefix "Division by zero" "Division by zero is not allowed" = true
  /\ (forall c, In c (calculations db) ->
        Calculation.type c = Divide -> is_zero (Calculation.b c) = false)
  /\ (forall env req c, In c (calculations (snd (serve env req db))) ->
        Calculation.type c = Divide -> is_zero (Calculation.b c) = false).
Proof.
  intros Hr.
  assert (forall d, calculations_ok d -> forall c, In c (calculations d) ->
            Calculation.type c = Divide -> is_zero (Calculation.b c) = false)
    as Hstored.
  { intros d [_ Hdiv _ _] c Hc Ht. specialize (Hdiv c Hc).
    unfold division_by_zero in Hdiv. now rewrite Ht in Hdiv. }
  repeat split.
  - intros calculation u Ht Hz. unfold create_calculation, division_by_zero.
    now rewrite Ht, Hz.
  - intros cid update u c Ec Ht Hz.
    unfold update_calculation, division_by_zero. now rewrite Ec, Ht, Hz.
  - apply Hstored. now apply reachable_calculations_ok.
  - intros env req. apply Hstored. apply serve_calculations_ok.
    now apply reachable_calculations_ok.
Qed.

Lemma owned_by_iff u c :
  owned_by u c = true <-> Calculation.user_id c = User.id u.
Proof. unfold owned_by. apply Nat.eqb_eq. Qed.

(** The scope of the calculation routes, as far as the store goes. *)
Lemma calculations_scoped_core env db :
  reachable db ->
  (forall req auth e,
     calculation_request req = Some auth ->
     get_current_user env auth db = Raise e ->
     status (fst (serve env req db)) = 401 /\ snd (serve env req db) = db)
  /\ (forall auth u,
        get_current_user env auth db = Return u ->
        fst (serve env (GetCalculations auth) db)
        = mkResponse 200
            (JArray (map Calculation_json
                         (filter (owned_by u) (calculations db))))
        /\ (forall c, In c (filter (owned_by u) (calculations db))
                      <-> In c (calculations db)
                          /\ Calculation.user_id c = User.id u))
  /\ (forall u calculation c db',
        create_calculation calculation db u = (Return c, db') ->
        Calculation.user_id c = User.id u)
  /\ (forall req auth u,
        calculation_request req = Some auth ->
        get_current_user env auth db = Return u ->
        filter (fun c => negb (owned_by u c))
               (calculations (snd (serve env req db)))
        = filter (fun c => negb (owned_by u c)) (calculations db)
        /\ (forall c, In c (calculations (snd (serve env req db))) ->
              In c (calculations db) \/ Calculation.user_id c = User.id u))
  /\ (forall u calculation_id c,
        fst (read_calculation calculation_id db u) = Return c ->
        In c (calculations db) /\ Calculation.user_id c = User.id u).
Proof.
  intros Hr. destruct (reachable_calculations_ok Hr) as [_ _ Hids _].
  split; [|split; [|split; [|split]]]; cycle 4.
  { intros u cid c. unfold read_calculation.
    destruct (first_owned cid u db) as [r|] eqn:Er; [|discriminate].
    cbn. intros [= <-]. apply first_owned_in in Er. tauto. }
  - intros req auth e Hreq Hauth.
    apply get_current_user_401 in Hauth as Hst.
    destruct req; try discriminate; injection Hreq as ->;
      cbn [serve]; unfold authenticated; rewrite Hauth; now cbn.
  - intros auth u Hauth. split.
    + cbn [serve]. unfold authenticated. now rewrite Hauth.
    + intros c. rewrite filter_In, owned_by_iff. reflexivity.
  - intros u calculation c db' E.
    destruct (create_calculation_cases calculation db u) as [[_ E']|[_ E']];
      rewrite E' in E; [discriminate|].
    now injection E as <- <-.
  - intros req auth u Hreq Hauth.
    destruct req; try discriminate; injection Hreq as ->;
      cbn [serve]; unfold authenticated; rewrite Hauth;
      rewrite snd_respond.
    + destruct (create_calculation_cases calculation db u)
        as [[_ ->]|[_ ->]]; cbn [snd]; [now auto|].
      cbn [add_calculation calculations]. split.
      * rewrite filter_app. cbn. unfold owned_by at 2. cbn.
        rewrite Nat.eqb_refl. cbn. now rewrite app_nil_r.
      * intros c Hc. apply in_app_iff in Hc.
        destruct Hc as [Hc|[<-|[]]]; [now left|now right].
    + cbn. now auto.
    + rewrite read_calculation_same. now auto.
    + destruct (update_calculation_cases calculation_id update db u)
        as [[_ ->]|[[c [_ [_ ->]]]|[c [c' [Ec [-> [Ei [Eu _]]]]]]]];
        cbn [snd]; try now auto.
      apply first_owned_in in Ec. destruct Ec as [Hin [_ Eo]].
      assert (owned_by u c' = true) as Ho
        by (apply owned_by_iff; congruence).
      unfold commit_calculation, set_calculations. cbn [calculations]. split.
      * apply filter_commit_others; [now rewrite Ho|].
        intros r Hr' Er.
        assert (r = c) as ->
          by (apply (@NoDup_map_same_key _ Calculation.id _ r c Hids Hr' Hin);
              congruence).
        apply negb_false_iff. apply owned_by_iff. exact Eo.
      * intros r Hr'. apply in_commit in Hr'.
        destruct Hr' as [->|Hr']; [right; congruence|now left].
    + unfold delete_calculation.
      destruct (first_owned _ _ _) as [c|] eqn:Ec; cbn [snd]; [|now auto].
      apply first_owned_in in Ec. destruct Ec as [Hin [_ Eo]].
      cbn [set_calculations calculations]. split.
      * apply filter_filter_others. intros r Hr' Er.
        apply negb_false_iff in Er. apply Nat.eqb_eq in Er.
        assert (r = c) as ->
          by (apply (@NoDup_map_same_key _ Calculation.id _ r c Hids Hr' Hin);
              congruence).
        apply negb_false_iff. apply owned_by_iff. exact Eo.
      * intros r Hr'. apply filter_In in Hr'. now left.
Qed.

Lemma fst_respond {A} ok (render : A -> Json) (r : Outcome A * Db) :
  fst (respond ok render r)
  = match fst r with
    | Return a => mkResponse ok (render a)
    | Raise e => error_response e
    end.
Proof. unfold respond. now destruct (fst r). Qed.

Lemma get_current_user_raises env auth db e :
  get_current_user env auth db = Raise e ->
  e = mkHTTPException 401 "Not authenticated"
  \/ e = mkHTTPException 401 "Could not validate credentials".
Proof.
  unfold get_current_user.
  destruct auth as [token|]; [|intros [= <-]; now left].
  destruct (decode_access_token _ token) as [sub|];
    [|intros [= <-]; now right].
  destruct (first_by_username sub db); [discriminate|].
  intros [= <-]. now right.
Qed.

Lemma get_current_user_same_users env auth db db2 :
  users db2 = users db ->
  get_current_user env auth db2 = get_current_user env auth db.
Proof.
  intros E. unfold get_current_user, first_by_username. now rewrite E.
Qed.

Lemma find_filter {A} (p q : A -> bool) (rows : list A) :
  find (fun c => p c && q c) rows = find p (filter q rows).
Proof.
  induction rows as [|x rows IH]; cbn; [reflexivity|].
  destruct (q x); cbn; [|now rewrite andb_false_r].
  rewrite andb_true_r. now destruct (p x).
Qed.

(** A lookup by key sees the rows of the user only. *)
Lemma first_owned_view calculation_id u db :
  first_owned calculation_id u db
  = find (fun c => Calculation.id c =? calculation_id)
         (filter (owned_by u) (calculations db)).
Proof. unfold first_owned. apply find_filter. Qed.

Lemma first_owned_same_view calculation_id u db db2 :
  filter (owned_by u) (calculations db2)
  = filter (owned_by u) (calculations db) ->
  first_owned calculation_id u db2 = first_owned calculation_id u db.
Proof. intros E. now rewrite !first_owned_view, E. Qed.

(** What a resolved user is answered depends on the user's own rows and
    on the key the next row will get, not on any other row. *)
Lemma serve_calculation_own_view env req auth u db db2 :
  calculation_request req = Some auth ->
  get_current_user env auth db = Return u ->
  get_current_user env auth db2 = Return u ->
  filter (owned_by u) (calculations db2)
  = filter (owned_by u) (calculations db) ->
  calculation_seq db2 = calculation_seq db ->
  fst (serve env req db2) = fst (serve env req db).
Proof.
  intros Hreq Hauth Hauth2 Hview Hseq.
  destruct req; try discriminate; injection Hreq as ->;
    cbn [serve]; unfold authenticated; rewrite Hauth, Hauth2;
    rewrite !fst_respond.
  - unfold create_calculation.
    destruct (division_by_zero _ _); cbn [fst]; [reflexivity|].
    now rewrite Hseq.
  - unfold read_calculations. cbn [fst]. now rewrite Hview.
  - unfold read_calculation.
    rewrite (first_owned_same_view calculation_id u db db2 Hview).
    now destruct (first_owned calculation_id u db).
  - unfold update_calculation.
    rewrite (first_owned_same_view calculation_id u db db2 Hview).
    destruct (first_owned calculation_id u db); [|reflexivity].
    now destruct (division_by_zero _ _).
  - unfold delete_calculation.
    rewrite (first_owned_same_view calculation_id u db db2 Hview).
    now destruct (first_owned calculation_id u db).
Qed.

(** C1.  On every calculation route a request whose bearer token does
    not resolve to a user is answered 401 and the store is untouched.
    For a resolved user the list route answers 200 with exactly the
    stored calculations that carry the user's key; a row the user creates
    carries that key; whatever the user's request is, read, create,
    update or delete, the rows of every other user stay as they were and
    every row of the store afterwards is an old row or one of the
    user's; and a row read by key is one of the user's.  Nothing is read
    for a token that does not resolve: the answer is one of two fixed
    bodies that hold a detail and no record, the same whatever the
    calculations table holds.  And what a resolved user is answered, on
    any of the routes, is the same in any two stores that hold the same
    rows of that user and give the next row the same key: no row of
    another user is read into it. *)
Theorem calculations_scoped_to_user env db :
  reachable db ->
  (forall req auth e,
     calculation_request req = Some auth ->
     get_current_user env auth db = Raise e ->
     status (fst (serve env req db)) = 401 /\ snd (serve env req db) = db)
  /\ (forall auth u,
        get_current_user env auth db = Return u ->
        fst (serve env (GetCalculations auth) db)
        = mkResponse 200
            (JArray (map Calculation_json
                         (filter (owned_by u) (calculations db))))
        /\ (forall c, In c (filter (owned_by u) (calculations db))
                      <-> In c (calculations db)
                          /\ Calculation.user_id c = User.id u))
  /\ (forall u calculation c db',
        create_calculation calculation db u = (Return c, db') ->
        Calculation.user_id c = User.id u)
  /\ (forall req auth u,
        calculation_request req = Some auth ->
        get_current_user env auth db = Return u ->
        filter (fun c => negb (owned_by u c))
               (calculations (snd (serve env req db)))
        = filter (fun c => negb (owned_by u c)) (calculations db)
        /\ (forall c, In c (calculations (snd (serve env req db))) ->
              In c (calculations db) \/ Calculation.user_id c = User.id u))
  /\ (forall u calculation_id c,
        fst (read_calculation calculation_id db u) = Return c ->
        In c (calculations db) /\ Calculation.user_id c = User.id u)
  /\ (forall req auth e,
        calculation_request req = Some auth ->
        get_current_user env auth db = Raise e ->
        (fst (serve env req db)
         = mkResponse 401 (JObject [("detail", JString "Not authenticated")])
         \/ fst (serve env req db)
            = mkResponse 401
                (JObject [("detail",
                           JString "Could not validate credentials")]))
        /\ (forall db2, users db2 = users db ->
              fst (serve env req db2) = fst (serve env req db)))
  /\ (forall req auth u db2,
        calculation_request req = Some auth ->
        get_current_user env auth db = Return u ->
        get_current_user env auth db2 = Return u ->
        filter (owned_by u) (calculations db2)
        = filter (owned_by u) (calculations db) ->
        calculation_seq db2 = calculation_seq db ->
        fst (serve env req db2) = fst (serve env req db)).
Proof.
  intros Hr.
  destruct (calculations_scoped_core env db Hr) as [H1 [H2 [H3 [H4 H5]]]].
  repeat (split; [assumption|]). split.
  - intros req auth e Hreq Hauth.
    assert (fst (serve env req db) = error_response e) as Hresp
      by (destruct req; try discriminate; injection Hreq as ->;
          cbn [serve]; unfold authenticated; now rewrite Hauth).
    split.
    + rewrite Hresp.
      destruct (get_current_user_raises env auth db e Hauth) as [->| ->];
        [left|right]; reflexivity.
    + intros db2 Eu.
      pose proof (get_current_user_same_users env auth db db2 Eu) as Hsame.
      rewrite Hauth in Hsame. rewrite Hresp.
      destruct req; try discriminate; injection Hreq as ->;
        cbn [serve]; unfold authenticated; now rewrite Hsame.
  - intros req auth u db2. apply serve_calculation_own_view.
Qed.

End Calculations.

(* ------------------------------------------------------------------ *)
(** ** What the three user routes answer *)

Section Answers.
Context {V : Pydantic} {U : AuthUtils} {N : Numeric}.

(** The answer to a registration is decided by the username, the email
    and the clock: not by the password, nor by the salt. *)
Lemma register_user_answer_blind env env' user user' db :
  now env = now env' ->
  UserCreate.username user = UserCreate.username user' ->
  UserCreate.email user = UserCreate.email user' ->
  fst (respond 201 (fun u => UserRead_json (UserRead.from_attributes u))
               (register_user env user db))
  = fst (respond 201 (fun u => UserRead_json (UserRead.from_attributes u))
                 (register_user env' user' db)).
Proof.
  intros Hnow Hn He. unfold register_user. rewrite Hn, He.
  destruct (first_by_email _ db); [reflexivity|].
  destruct (first_by_username _ db); [reflexivity|].
  unfold respond. cbn. now rewrite Hnow.
Qed.

(** C10.  The [UserRead] rendering of a row has the four keys id,
    username, email and created_at, and is the same whatever the row's
    password hash.  The answers of register, read-current-user and
    profile-update are built from it: a registration is answered 201 with
    the [UserRead] rendering of the new row, or with the detail of the
    refusal; read-current-user 200 with that of the current user;
    profile-update 200 with that of the updated user beside the token and
    its type, or with the detail of the refusal.  So two stores that
    differ only in the password hashes they hold get the same answer to
    any request on these three routes, and two registrations that differ
    only in their password and salt get the same answer. *)
Theorem responses_hide_password_hash :
  (forall u,
     json_keys (UserRead_json (UserRead.from_attributes u))
     = ["id"; "username"; "email"; "created_at"])
  /\ (forall u h,
        UserRead_json (UserRead.from_attributes (User.with_password_hash h u))
        = UserRead_json (UserRead.from_attributes u))
  /\ (forall env auth db u,
        get_current_user env auth db = Return u ->
        fst (serve env (GetMe auth) db)
        = mkResponse 200 (UserRead_json (UserRead.from_attributes u)))
  /\ (forall env req db1 db2,
        renders_user req = true ->
        without_hashes db1 = without_hashes db2 ->
        fst (serve env req db1) = fst (serve env req db2))
  /\ (forall env user db,
        UserCreate.valid user = true ->
        fst (serve env (PostRegister user) db)
        = match fst (register_user env user db) with
          | Return u =>
            mkResponse 201 (UserRead_json (UserRead.from_attributes u))
          | Raise e =>
            mkResponse (status_code e) (JObject [("detail", JString (detail e))])
          end)
  /\ (forall env env' user user' db,
        now env = now env' ->
        UserCreate.username user = UserCreate.username user' ->
        UserCreate.email user = UserCreate.email user' ->
        UserCreate.valid user = true -> UserCreate.valid user' = true ->
        fst (serve env (PostRegister user) db)
        = fst (serve env' (PostRegister user') db))
  /\ (forall env auth update db u,
        get_current_user env auth db = Return u ->
        UserProfileUpdate.valid update = true ->
        fst (serve env (PutMe auth update) db)
        = match fst (update_current_user env update db u) with
          | Return r =>
            mkResponse 200
              (JObject
                 [("user", UserRead_json
                             (UserRead.from_attributes
                                (UserProfileResponse.user r)));
                  ("access_token",
                   match UserProfileResponse.access_token r with
                   | Some t => JString t
                   | None => JNull
                   end);
                  ("token_type", JString (UserProfileResponse.token_type r))])
          | Raise e =>
            mkResponse (status_code e) (JObject [("detail", JString (detail e))])
          end).
Proof.
  destruct responses_blind_to_stored_hashes as [Hkeys [Hblind [Hme Hstores]]].
  repeat (split; [assumption|]). split; [|split].
  - intros env user db Hvalid. cbn [serve]. rewrite Hvalid.
    now rewrite fst_respond.
  - intros env env' user user' db Hnow Hn He Hvalid Hvalid'.
    cbn [serve]. rewrite Hvalid, Hvalid'.
    now apply register_user_answer_blind.
  - intros env auth update db u Hauth Hvalid. cbn [serve].
    unfold authenticated. rewrite Hauth, Hvalid.
    now rewrite fst_respond.
Qed.

End Answers.

(* ------------------------------------------------------------------ *)
(** ** The service at work *)

Section Runs.
Context {V : Pydantic} {U : AuthUtils} {N : Numeric}.

Lemma reachable_run reqs db :
  reachable db -> reachable (snd (run reqs db)).
Proof.
  revert db. induction reqs as [|[env req] reqs IH]; intros db Hr; cbn.
  - exact Hr.
  - destruct (serve env req db) as [resp db1] eqn:E.
    specialize (IH db1). destruct (run reqs db1) as [resps db2]. cbn in *.
    apply IH. change db1 with (snd (resp, db1)). rewrite <- E.
    now constructor.
Qed.

End Runs.

Import Reference.

Lemma reference_round_trip : hash_round_trip.
Proof.
  intros salt p. cbn. destruct salt; cbn; now rewrite String.eqb_refl.
Qed.


Lemma reachable_db_alice : reachable db_alice.
Proof. apply reachable_run. constructor. Qed.

Lemma reachable_db_two : reachable db_two.
Proof. apply reachable_run. constructor. Qed.

(** [test_change_password_flow] and [test_change_password_wrong_current]. *)
Example replay_change_password :
  statuses (run
    [(env0, PostRegister (UserCreate.Build "pwuser" "pw@example.com" "securepass123"));
     (env0, PostLogin (UserLogin.Build "pwuser" "securepass123"));
     (env1, PostChangePassword (bearer "pwuser")
              (PasswordChange.Build "wrongpass" "newsecure123"));
     (env1, PostChangePassword (bearer "pwuser")
              (PasswordChange.Build "securepass123" "newsecure123"));
     (env1, PostLogin (UserLogin.Build "pwuser" "securepass123"));
     (env1, PostLogin (UserLogin.Build "pwuser" "newsecure123"))]
    empty_db)
  = [201; 200; 400; 200; 401; 200].
Proof. vm_compute. reflexivity. Qed.

(** Lengths are counted in characters: two accented letters are four
    bytes and too short for a username, twenty-six of them are fifty-two
    bytes and short enough. *)
Example lengths_count_characters :
  char_length "alice" = 5
  /\ String.length (copies 2 e_acute) = 4
  /\ length_between 3 50 (copies 2 e_acute) = false
  /\ String.length (copies 26 e_acute) = 52
  /\ length_between 3 50 (copies 26 e_acute) = true.
Proof. vm_compute. repeat split. Qed.

(** [test_register_duplicate_email], [test_update_profile_duplicate_username]
    and [test_duplicate_username_rejected]. *)
Example replay_duplicates :
  statuses (run
    [(env0, PostRegister (UserCreate.Build "user1" "user1@example.com" "securepass123"));
     (env0, PostRegister (UserCreate.Build "user2" "user2@example.com" "securepass123"));
     (env0, PostRegister (UserCreate.Build "user3" "user1@example.com" "securepass123"));
     (env0, PostRegister (UserCreate.Build "user1" "other@example.com" "securepass123"));
     (env1, PutMe (bearer "user2") (UserProfileUpdate.Build (Some "user1") None))]
    empty_db)
  = [201; 201; 400; 400; 400].
Proof. vm_compute. reflexivity. Qed.

(** The calculation tests: results 15, 50, 5 and 5 after an update to
    Subtract, 422 on a zero divisor, 204 then 404 around a delete, 401
    without a token. *)
Example replay_calculations :
  map (fun r => (status r, json_field "result" (body r)))
    (fst (run
      [(env0, PostRegister (UserCreate.Build "testuser" "test@example.com" "securepass123"));
       (env1, PostCalculation (bearer "testuser")
                (CalculationCreate.Build (10#1)%Q (5#1)%Q Add));
       (env1, PostCalculation (bearer "testuser")
                (CalculationCreate.Build (10#1)%Q (5#1)%Q Multiply));
       (env1, PostCalculation (bearer "testuser")
                (CalculationCreate.Build (10#1)%Q (2#1)%Q Divide));
       (env1, PutCalculation (bearer "testuser") 1
                (CalculationUpdate.Build None None (Some Subtract)));
       (env1, PostCalculation (bearer "testuser")
                (CalculationCreate.Build (10#1)%Q (0#1)%Q Divide));
       (env1, DeleteCalculation (bearer "testuser") 1);
       (env1, GetCalculation (bearer "testuser") 1);
       (env1, GetCalculations None)]
      empty_db))
  = [(201, None);
     (201, Some (JNum (15#1)%Q));
     (201, Some (JNum (50#1)%Q));
     (201, Some (JNum (5#1)%Q));
     (200, Some (JNum (5#1)%Q));
     (422, None);
     (204, None);
     (404, None);
     (401, None)].
Proof. vm_compute. reflexivity. Qed.

(* ------------------------------------------------------------------ *)
(** ** The statements at concrete stores *)

Lemma register_user_email_conflict_first_witness :
  In (UserCreate.email alice_again) (map User.email (users db_alice))
  /\ In (UserCreate.username alice_again) (map User.username (users db_alice))
  /\ register_user env1 alice_again db_alice
     = (Raise (mkHTTPException 400 "Email already registered"), db_alice).
Proof.
  assert (In (UserCreate.email alice_again) (map User.email (users db_alice)))
    as He by (vm_compute; left; reflexivity).
  assert (In (UserCreate.username alice_again)
             (map User.username (users db_alice)))
    as Hn by (vm_compute; left; reflexivity).
  split; [exact He|]. split; [exact Hn|].
  exact (proj1 (register_user_email_conflict_first env1 alice_again db_alice
                  He Hn)).
Defined.

Lemma login_user_iff_credentials_witness :
  reachable db_alice
  /\ login_user env1 (UserLogin.Build "alice" "securepass123") db_alice
     = (Return (Token.Build "jwt:alice" "bearer"), db_alice)
  /\ login_user env1 (UserLogin.Build "alice" "wrongpassword") db_alice
     = (Raise (mkHTTPException 401 "Invalid credentials"), db_alice).
Proof.
  split; [exact reachable_db_alice|]. split.
  - apply (login_user_iff_credentials env1
             (UserLogin.Build "alice" "securepass123") db_alice
             reachable_db_alice).
    exists alice_row. vm_compute. repeat split. now left.
  - apply (login_user_iff_credentials env1
             (UserLogin.Build "alice" "wrongpassword") db_alice
             reachable_db_alice).
    intros [u [Hu [_ Hv]]]. vm_compute in Hu.
    destruct Hu as [<-|[]]. vm_compute in Hv. discriminate.
Defined.

(** Against C3 as worded: a registration whose username is stored is not
    always answered "Username already taken"; when its email is stored
    too the answer is "Email already registered". *)
Lemma register_stored_username_other_detail :
  reachable db_alice
  /\ In (UserCreate.username alice_again) (map User.username (users db_alice))
  /\ register_user env1 alice_again db_alice
     = (Raise (mkHTTPException 400 "Email already registered"), db_alice)
  /\ fst (register_user env1 alice_again db_alice)
     <> Raise (mkHTTPException 400 "Username already taken").
Proof.
  split; [exact reachable_db_alice|]. split; [vm_compute; now left|].
  split; [vm_compute; reflexivity|]. vm_compute. intros [=].
Qed.

Lemma unique_usernames_and_emails_witness :
  reachable db_two
  /\ NoDup (map User.username (users db_two))
  /\ NoDup (map User.email (users db_two))
  /\ register_user env1
       (UserCreate.Build "alice" "fresh@example.com" "securepass123") db_two
     = (Raise (mkHTTPException 400 "Username already taken"), db_two)
  /\ exists d,
       update_current_user env1 (UserProfileUpdate.Build (Some "bobby") None)
         db_two alice_row
       = (Raise (mkHTTPException 400 d), db_two).
Proof.
  pose proof (unique_usernames_and_emails db_two reachable_db_two)
    as [Hn [He [_ [Hreg Hupd]]]].
  split; [exact reachable_db_two|]. split; [exact Hn|]. split; [exact He|].
  split.
  - apply Hreg.
    + vm_compute. intros [H|[H|[]]]; discriminate.
    + vm_compute. now left.
  - apply Hupd; [reflexivity|reflexivity|].
    left. exists "bobby". split; [reflexivity|]. split.
    + vm_compute. discriminate.
    + vm_compute. right. now left.
Defined.



Lemma register_user_then_login_witness :
  reachable db_alice
  /\ hash_round_trip
  /\ exists new_user db',
       register_user env1 bobby db_alice = (Return new_user, db')
       /\ login_user env0 (UserLogin.Build "bobby" "hunter2hunter2") db'
          = (Return (Token.Build "jwt:bobby" "bearer"), db').
Proof.
  split; [exact reachable_db_alice|].
  split; [exact reference_round_trip|].
  eexists. eexists. split; [vm_compute; reflexivity|].
  match goal with
  | |- context [login_user _ _ ?d] =>
    exact (proj1 (register_user_then_login env1 env0 bobby db_alice _ d
                    reachable_db_alice reference_round_trip eq_refl))
  end.
Defined.

Lemma responses_hide_password_hash_witness :
  renders_user (GetMe (bearer "alice")) = true
  /\ without_hashes db_alice
     = without_hashes
         (snd (run [(env0, PostRegister alice);
                    (env1, PostChangePassword (bearer "alice") new_password)]
                   empty_db))
  /\ fst (serve env1 (GetMe (bearer "alice")) db_alice)
     = fst (serve env1 (GetMe (bearer "alice"))
              (snd (run [(env0, PostRegister alice);
                         (env1, PostChangePassword (bearer "alice")
                                  new_password)]
                        empty_db)))
  /\ UserCreate.valid bobby = true
  /\ fst (serve env1 (PostRegister bobby) db_alice)
     = mkResponse 201
         (JObject [("id", JInt 2); ("username", JString "bobby");
                   ("email", JString "bob@example.com");
                   ("created_at", JInt 1700000060)]).
Proof.
  split; [reflexivity|].
  assert (without_hashes db_alice
          = without_hashes
              (snd (run [(env0, PostRegister alice);
                         (env1, PostChangePassword (bearer "alice")
                                  new_password)]
                        empty_db))) as Hsame by (vm_compute; reflexivity).
  assert (UserCreate.valid bobby = true) as Hvalid by reflexivity.
  split; [exact Hsame|].
  destruct responses_hide_password_hash as [_ [_ [_ [Hblind [Hreg _]]]]].
  split; [exact (Hblind env1 (GetMe (bearer "alice")) _ _ eq_refl Hsame)|].
  split; [exact Hvalid|].
  rewrite (Hreg env1 bobby db_alice Hvalid). vm_compute. reflexivity.
Defined.

Lemma calculations_scoped_to_user_witness :
  reachable db_two
  /\ get_current_user env1 (bearer "alice") db_two = Return alice_row
  /\ fst (serve env1 (GetCalculations (bearer "alice")) db_two)
     = mkResponse 200 (JArray [Calculation_json alice_quotient])
  /\ status (fst (serve env1 (DeleteCalculation None 2) db_two)) = 401
  /\ snd (serve env1 (DeleteCalculation None 2) db_two) = db_two
  /\ filter (fun c => negb (owned_by alice_row c))
       (calculations (snd (serve env1 (DeleteCalculation (bearer "alice") 2)
                             db_two)))
     = filter (fun c => negb (owned_by alice_row c)) (calculations db_two)
  /\ fst (serve env1 (GetCalculations None) db_two)
     = mkResponse 401 (JObject [("detail", JString "Not authenticated")])
  /\ fst (serve env1 (GetCalculations None)
            (snd (serve env1 (DeleteCalculation (bearer "bobby") 2) db_two)))
     = fst (serve env1 (GetCalculations None) db_two)
  /\ fst (serve env1 (GetCalculation (bearer "alice") 2)
            (snd (serve env1 (DeleteCalculation (bearer "bobby") 2) db_two)))
     = fst (serve env1 (GetCalculation (bearer "alice") 2) db_two).
Proof.
  assert (get_current_user env1 (bearer "alice") db_two = Return alice_row)
    as Hauth by (vm_compute; reflexivity).
  assert (get_current_user env1 None db_two
          = Raise (mkHTTPException 401 "Not authenticated"))
    as Hnone by reflexivity.
  destruct (calculations_scoped_to_user env1 db_two reachable_db_two)
    as [H401 [Hlist [_ [Hothers [_ [Hrefused Hview]]]]]].
  destruct (Hrefused (GetCalculations None) None _ eq_refl Hnone)
    as [Hbody Hsame].
  split; [exact reachable_db_two|]. split; [exact Hauth|].
  split; [exact (proj1 (Hlist _ _ Hauth))|].
  split; [exact (proj1 (H401 (DeleteCalculation None 2) None _ eq_refl Hnone))|].
  split; [exact (proj2 (H401 (DeleteCalculation None 2) None _ eq_refl Hnone))|].
  split; [exact (proj1 (Hothers (DeleteCalculation (bearer "alice") 2) _ _
                          eq_refl Hauth))|].
  split.
  { destruct Hbody as [Hbody|Hbody]; [exact Hbody|].
    vm_compute in Hbody. discriminate Hbody. }
  split.
  - apply Hsame. vm_compute. reflexivity.
  - apply (Hview (GetCalculation (bearer "alice") 2) (bearer "alice")
             alice_row _ eq_refl Hauth); vm_compute; reflexivity.
Defined.

Lemma division_by_zero_guard_witness :
  reachable db_two
  /\ create_calculation (CalculationCreate.Build (10#1)%Q (0#1)%Q Divide)
       db_two alice_row
     = (Raise (mkHTTPException 422 "Division by zero is not allowed"), db_two)
  /\ update_calculation 1 (CalculationUpdate.Build None (Some (0#1)%Q) None)
       db_two alice_row
     = (Raise (mkHTTPException 422 "Division by zero is not allowed"), db_two)
  /\ is_zero (Calculation.b alice_quotient) = false.
Proof.
  destruct (division_by_zero_guard db_two reachable_db_two)
    as [Hcreate [Hupdate [_ [Hstored _]]]].
  split; [exact reachable_db_two|]. split; [|split].
  - apply Hcreate; reflexivity.
  - apply Hupdate with (c := alice_quotient);
      [vm_compute; reflexivity|reflexivity|reflexivity].
  - apply Hstored; [vm_compute; now left|reflexivity].
Defined.


(* ------------------------------------------------------------------ *)
(** ** Beyond the claims: how the user handlers compose *)

Section Tables.

Lemma find_snoc {A} (p : A -> bool) (rows : list A) (x : A) :
  find p (rows ++ [x])
  = match find p rows with
    | Some y => Some y
    | None => if p x then Some x else None
    end.
Proof.
  induction rows as [|y rows IH]; cbn; [reflexivity|].
  now destruct (p y).
Qed.

Lemma NoDup_map_same_value {A B} (f : A -> B) (rows : list A) (x y : A) :
  NoDup (map f rows) -> In x rows -> In y rows -> f x = f y -> x = y.
Proof.
  induction rows as [|z rows IH]; cbn; intros Hnd Hx Hy E; [contradiction|].
  inversion Hnd as [|? ? Hz Hnd']; subst.
  destruct Hx as [->|Hx], Hy as [->|Hy]; auto.
  - exfalso. apply Hz. rewrite E. now apply in_map.
  - exfalso. apply Hz. rewrite <- E. now apply in_map.
Qed.

(** A row of the table after a write-back is the row written or a row
    under another key that was there before. *)
Lemma in_commit_other {A} (key : A -> nat) (u r : A) (rows : list A) :
  In r (map (fun r => if key r =? key u then u else r) rows) ->
  r = u \/ (In r rows /\ key r <> key u).
Proof.
  rewrite in_map_iff. intros [x [E Hin]].
  destruct (Nat.eqb_spec (key x) (key u)); subst; auto.
Qed.

Lemma in_other_commit {A} (key : A -> nat) (u r : A) (rows : list A) :
  In r rows -> key r <> key u ->
  In r (map (fun r => if key r =? key u then u else r) rows).
Proof.
  intros Hin Hne. apply in_map_iff. exists r. split; [|exact Hin].
  apply Nat.eqb_neq in Hne. now rewrite Hne.
Qed.

(** Writing a row back unchanged changes nothing. *)
Lemma commit_same {A} (key : A -> nat) (u : A) (rows : list A) :
  NoDup (map key rows) -> In u rows ->
  map (fun r => if key r =? key u then u else r) rows = rows.
Proof.
  intros Hnd Hin. rewrite <- (map_id rows) at 2.
  apply map_ext_in. intros r Hr.
  destruct (Nat.eqb_spec (key r) (key u)) as [E|E]; [|reflexivity].
  now apply (NoDup_map_same_value key rows u r Hnd Hin Hr).
Qed.

(** A lookup that the written row fails, and that the row it replaces
    failed, is not affected by the write-back. *)
Lemma find_commit_others {A} (key : A -> nat) (p : A -> bool) (u : A)
  (rows : list A) :
  p u = false ->
  (forall r, In r rows -> key r = key u -> p r = false) ->
  find p (map (fun r => if key r =? key u then u else r) rows) = find p rows.
Proof.
  intros Hu. induction rows as [|x rows IH]; cbn; intros Hl; [reflexivity|].
  rewrite IH by (intros r Hr; apply Hl; now right).
  destruct (Nat.eqb_spec (key x) (key u)) as [E|E]; [|reflexivity].
  now rewrite Hu, (Hl x (or_introl eq_refl) E).
Qed.

End Tables.

Section Registration.
Context {V : Pydantic} {U : AuthUtils} {N : Numeric}.

(** X1.  A registration that succeeds appends one row and touches no
    other: the row is found afterwards under the username and under the
    email of the request, carries a key no stored row had, the hash of
    the request's password and the clock of the request. *)
Theorem register_user_then_lookup env user db new_user db' :
  reachable db ->
  register_user env user db = (Return new_user, db') ->
  users db' = (users db ++ [new_user])%list
  /\ first_by_username (UserCreate.username user) db' = Some new_user
  /\ first_by_email (UserCreate.email user) db' = Some new_user
  /\ ~ In (User.id new_user) (map User.id (users db))
  /\ User.password_hash new_user
     = hash_password (entropy env) (UserCreate.password user)
  /\ User.created_at new_user = now env.
Proof.
  intros Hr Hreg. pose proof (reachable_users_ok Hr) as [_ _ _ Hseq].
  destruct (register_user_cases env user db)
    as [[_ E]|[[_ [_ E]]|[He [Hn E]]]]; rewrite E in Hreg;
    try discriminate.
  cbn zeta in Hreg. injection Hreg as <- <-.
  split; [reflexivity|]. split; [|split; [|split; [|split]]].
  - unfold first_by_username in *. cbn [add_user users].
    rewrite find_snoc, Hn. cbn. now rewrite String.eqb_refl.
  - unfold first_by_email in *. cbn [add_user users].
    rewrite find_snoc, He. cbn. now rewrite String.eqb_refl.
  - cbn. intros H. apply in_map_iff in H. destruct H as [u [E' Hu]].
    apply Hseq in Hu. lia.
  - reflexivity.
  - reflexivity.
Qed.

(** X2.  The same registration never succeeds twice in a row: whatever
    the first attempt did, the second is refused with 400, and after a
    success the reason given is the email. *)
Theorem register_user_never_twice env env' user db :
  exists d,
    register_user env' user (snd (register_user env user db))
    = (Raise (mkHTTPException 400 d), snd (register_user env user db))
    /\ (forall u, fst (register_user env user db) = Return u ->
          d = "Email already registered").
Proof.
  destruct (register_user_cases env user db)
    as [[He E]|[[He [Hn E]]|[He [Hn E]]]]; rewrite E; cbn [snd fst].
  - exists "Email already registered". split; [|reflexivity].
    destruct (register_user_cases env' user db)
      as [[_ E']|[[He' _]|[He' _]]]; [exact E'| |]; contradiction.
  - exists "Username already taken". split; [|discriminate].
    destruct (register_user_cases env' user db)
      as [[He' _]|[[_ [_ E']]|[_ [Hn' _]]]]; [|exact E'|]; contradiction.
  - exists "Email already registered". split; [|reflexivity].
    cbn zeta. unfold register_user at 1. unfold first_by_email in *.
    cbn [add_user users]. rewrite find_snoc, He. cbn.
    now rewrite String.eqb_refl.
Qed.

(** X3.  A registration does not change what a login under any other
    username gets. *)
Theorem register_user_leaves_other_logins env env' user db login :
  UserLogin.username login <> UserCreate.username user ->
  fst (login_user env' login (snd (register_user env user db)))
  = fst (login_user env' login db).
Proof.
  intros Hne.
  destruct (register_user_cases env user db)
    as [[_ E]|[[_ [_ E]]|[_ [_ E]]]]; rewrite E; try reflexivity.
  cbn zeta. cbn [snd]. unfold login_user, first_by_username.
  cbn [add_user users]. rewrite find_snoc.
  destruct (find _ (users db)) as [db_user|]; [now destruct (negb _)|].
  cbn. apply not_eq_sym in Hne. apply String.eqb_neq in Hne.
  now rewrite Hne.
Qed.

End Registration.

Section Profile.
Context {V : Pydantic} {U : AuthUtils} {N : Numeric}.

Lemma username_check_iff update cu db :
  UserProfileUpdate.valid update = true ->
  match UserProfileUpdate.username update with
  | Some n => truthy n && negb (n =? User.username cu)%string
              && is_some (first_by_username n db)
  | None => false
  end = true
  <-> changes_to_taken_username update cu db.
Proof.
  intros Hvalid. unfold UserProfileUpdate.valid in Hvalid.
  apply andb_true_iff in Hvalid. destruct Hvalid as [Hvn _].
  unfold changes_to_taken_username.
  destruct (UserProfileUpdate.username update) as [n|].
  - rewrite (@truthy_length_between 3 50 n) by (auto; lia). cbn [andb].
    rewrite andb_true_iff, negb_true_iff, String.eqb_neq. split.
    + intros [Hne Hs]. exists n. split; [reflexivity|]. split; [exact Hne|].
      destruct (first_by_username n db) as [u|] eqn:E; [|discriminate].
      apply first_by_username_in in E. destruct E as [Hin <-].
      now apply in_map.
    + intros [n' [[= <-] [Hne Hin]]]. split; [exact Hne|].
      apply is_some_true. now apply in_usernames_first.
  - split; [discriminate|]. intros [n [E _]]. discriminate.
Qed.

Lemma email_check_iff update cu db :
  EmailStr "" = false ->
  UserProfileUpdate.valid update = true ->
  match UserProfileUpdate.email update with
  | Some e => truthy e && negb (e =? User.email cu)%string
              && is_some (first_by_email e db)
  | None => false
  end = true
  <-> changes_to_taken_email update cu db.
Proof.
  intros Hempty Hvalid. unfold UserProfileUpdate.valid in Hvalid.
  apply andb_true_iff in Hvalid. destruct Hvalid as [_ Hve].
  unfold changes_to_taken_email.
  destruct (UserProfileUpdate.email update) as [e|].
  - assert (truthy e = true) as ->.
    { unfold truthy. destruct (String.eqb_spec e ""); [|reflexivity].
      subst. congruence. }
    cbn [andb].
    rewrite andb_true_iff, negb_true_iff, String.eqb_neq. split.
    + intros [Hne Hs]. exists e. split; [reflexivity|]. split; [exact Hne|].
      destruct (first_by_email e db) as [u|] eqn:E; [|discriminate].
      apply first_by_email_in in E. destruct E as [Hin <-].
      now apply in_map.
    + intros [e' [[= <-] [Hne Hin]]]. split; [exact Hne|].
      apply is_some_true. now apply in_emails_first.
  - split; [discriminate|]. intros [e [E _]]. discriminate.
Qed.

(** A valid body that takes no stored value is accepted. *)
Lemma update_current_user_returns env update db cu :
  EmailStr "" = false ->
  UserProfileUpdate.valid update = true ->
  ~ changes_to_taken_username update cu db ->
  ~ changes_to_taken_email update cu db ->
  exists r db', update_current_user env update db cu = (Return r, db').
Proof.
  intros Hempty Hvalid Hnu Hne.
  destruct (update_current_user_cases env update db cu)
    as [[d [_ E]]|[cu' [E _]]]; [|do 2 eexists; exact E].
  exfalso. revert E. unfold update_current_user. cbv zeta.
  match goal with
  | |- context [if ?b then (Raise _, db) else _] => destruct b eqn:Eb1
  end.
  - intros _. apply Hnu. now apply (username_check_iff update cu db Hvalid).
  - match goal with
    | |- context [if ?b then (Raise _, db) else _] => destruct b eqn:Eb2
    end.
    + intros _. apply Hne.
      now apply (email_check_iff update cu db Hempty Hvalid).
    + discriminate.
Qed.

(** C9.  A profile update of a valid body, for a stored user, that takes
    no stored username or email is accepted.  Its answer carries a token
    exactly when the body has a username, be it the current one or not;
    the token is created for that username.  Without a username the
    token is null: so when only the email is updated.  The token type is
    "bearer".  A column the body names takes the value given; a column
    the body leaves out, like the key, the hash and the creation time,
    which it cannot name, keeps its value.  The user returned is the row
    written back to the store. *)
Theorem update_current_user_token_and_fields env update db current_user :
  EmailStr "" = false ->
  UserProfileUpdate.valid update = true ->
  In current_user (users db) ->
  (~ changes_to_taken_username update current_user db ->
   ~ changes_to_taken_email update current_user db ->
   exists r db',
     update_current_user env update db current_user = (Return r, db'))
  /\ (forall r db',
        update_current_user env update db current_user = (Return r, db') ->
        (UserProfileResponse.access_token r <> None
         <-> UserProfileUpdate.username update <> None)
        /\ (forall n, UserProfileUpdate.username update = Some n ->
              UserProfileResponse.access_token r
              = Some (create_access_token (now env) [("sub", n)])
              /\ User.username (UserProfileResponse.user r) = n)
        /\ (UserProfileUpdate.username update = None ->
            UserProfileResponse.access_token r = None
            /\ User.username (UserProfileResponse.user r)
               = User.username current_user)
        /\ UserProfileResponse.token_type r = "bearer"
        /\ (UserProfileUpdate.email update = None ->
            User.email (UserProfileResponse.user r) = User.email current_user)
        /\ User.id (UserProfileResponse.user r) = User.id current_user
        /\ User.password_hash (UserProfileResponse.user r)
           = User.password_hash current_user
        /\ User.created_at (UserProfileResponse.user r)
           = User.created_at current_user
        /\ In (UserProfileResponse.user r) (users db')
        /\ (forall e, UserProfileUpdate.email update = Some e ->
              User.email (UserProfileResponse.user r) = e)
        /\ db' = commit_user (UserProfileResponse.user r) db).
Proof.
  intros Hempty Hvalid Hin. split.
  { intros Hnu Hne. now apply update_current_user_returns. }
  intros r db' Hupd.
  destruct (update_current_user_cases env update db current_user)
    as [[d [_ E]]|[cu' [E [Eid [Eh [Ec [En [Ee _]]]]]]]];
    rewrite E in Hupd; [discriminate|].
  injection Hupd as <- <-.
  rewrite refresh_commit with (cu := current_user) by assumption.
  cbn [UserProfileResponse.access_token UserProfileResponse.user
       UserProfileResponse.token_type].
  unfold UserProfileUpdate.valid in Hvalid.
  apply andb_true_iff in Hvalid. destruct Hvalid as [Hvn Hve].
  assert (forall e, UserProfileUpdate.email update = Some e ->
            User.email cu' = e) as Hmail.
  { intros e He. rewrite He in Ee, Hve.
    assert (truthy e = true) as Ht.
    { unfold truthy. destruct (String.eqb_spec e ""); [|reflexivity].
      subst. congruence. }
    now rewrite Ht in Ee. }
  assert (In cu' (users (commit_user cu' db))) as Hin'
    by now apply in_commit_user with (cu := current_user).
  destruct (UserProfileUpdate.username update) as [n|].
  - rewrite (@truthy_length_between 3 50 n) in * by (auto; lia).
    repeat split; try congruence; try discriminate; try assumption.
    intros Hnone. now rewrite Hnone in Ee.
  - repeat split; try congruence; try discriminate; try assumption.
    intros Hnone. now rewrite Hnone in Ee.
Qed.

(** X4.  A profile update (of a valid body) is accepted exactly when it
    changes neither the username nor the email to one that is stored;
    in particular a body that repeats the user's own username and email
    is accepted whatever else the store holds. *)
Theorem update_current_user_accepted_iff env update db current_user :
  EmailStr "" = false ->
  UserProfileUpdate.valid update = true ->
  (exists r db',
     update_current_user env update db current_user = (Return r, db'))
  <-> (~ changes_to_taken_username update current_user db
       /\ ~ changes_to_taken_email update current_user db).
Proof.
  intros Hempty Hvalid.
  pose proof (username_check_iff update current_user db Hvalid) as Hn.
  pose proof (email_check_iff update current_user db Hempty Hvalid) as He.
  unfold update_current_user. cbv zeta.
  match goal with
  | |- context [if ?b then (Raise _, db) else _] => destruct b eqn:Eb1
  end.
  - split; [intros [r [db' [=]]]|]. intros [Hno _]. exfalso. apply Hno.
    now apply Hn.
  - match goal with
    | |- context [if ?b then (Raise _, db) else _] => destruct b eqn:Eb2
    end.
    + split; [intros [r [db' [=]]]|]. intros [_ Hno]. exfalso. apply Hno.
      now apply He.
    + split; [|intros _; now do 2 eexists].
      intros _. split.
      * intros H. apply Hn in H. congruence.
      * intros H. apply He in H. congruence.
Qed.

(** After a write-back that changed the username, the old one is
    stored no more. *)
Lemma old_username_gone db cu cu' :
  users_ok db -> In cu (users db) -> User.id cu' = User.id cu ->
  User.username cu' <> User.username cu ->
  ~ In (User.username cu) (map User.username (users (commit_user cu' db))).
Proof.
  intros Hok Hin Eid Hne H. apply in_map_iff in H.
  destruct H as [r [Er Hr]]. unfold commit_user, set_users in Hr. cbn in Hr.
  apply in_commit_other in Hr. destruct Hr as [->|[Hr Hk]]; [congruence|].
  assert (r = cu) as ->
    by exact (NoDup_map_same_value User.username (users db) r cu
                (ok_usernames Hok) Hr Hin Er).
  congruence.
Qed.

(** X5.  After a successful profile update the row returned is found
    under its username and under its email, and a login under that
    username is granted for exactly the passwords that verified before
    the update: the update leaves the password alone.  If the username
    changed, a login under the old one is refused. *)
Theorem update_current_user_then_login env env' update db current_user r db' :
  reachable db -> In current_user (users db) ->
  update_current_user env update db current_user = (Return r, db') ->
  let user := UserProfileResponse.user r in
  first_by_username (User.username user) db' = Some user
  /\ first_by_email (User.email user) db' = Some user
  /\ (forall q,
        login_user env' (UserLogin.Build (User.username user) q) db'
        = if verify_password q (User.password_hash current_user)
          then (Return (Token.Build
                          (create_access_token (now env')
                             [("sub", User.username user)])
                          "bearer"), db')
          else (Raise (mkHTTPException 401 "Invalid credentials"), db'))
  /\ (User.username user <> User.username current_user ->
      forall q,
        login_user env' (UserLogin.Build (User.username current_user) q) db'
        = (Raise (mkHTTPException 401 "Invalid credentials"), db')).
Proof.
  intros Hr Hin Hupd. pose proof (reachable_users_ok Hr) as Hok.
  assert (users_ok (snd (update_current_user env update db current_user)))
    as Hok' by now apply update_current_user_users_ok.
  destruct (update_current_user_cases env update db current_user)
    as [[d [_ E]]|[cu' [E [Eid [Eh _]]]]];
    rewrite E in Hupd, Hok'; [discriminate|].
  injection Hupd as <- <-. cbn [snd] in Hok'.
  rewrite refresh_commit with (cu := current_user) by assumption.
  cbn [UserProfileResponse.user].
  assert (In cu' (users (commit_user cu' db))) as Hin'
    by now apply in_commit_user with (cu := current_user).
  split; [|split; [|split]].
  - exact (first_by_username_unique _ _ (ok_usernames Hok') Hin').
  - unfold first_by_email.
    exact (find_unique User.email _ _ (ok_emails Hok') Hin').
  - intros q. rewrite <- Eh.
    exact (login_user_known env' q _ cu' (ok_usernames Hok') Hin').
  - intros Hne q. unfold login_user. cbn [UserLogin.username].
    assert (first_by_username (User.username current_user)
              (commit_user cu' db) = None) as ->; [|reflexivity].
    apply first_by_username_none.
    now apply old_username_gone.
Qed.

(** X6.  A username given up by a profile update is free again: a
    registration under it, with an email that is not stored, succeeds
    and creates a row under a key other than that of the user who had
    the name. *)
Theorem renamed_username_is_free env env' update db current_user r db' user :
  reachable db -> In current_user (users db) ->
  update_current_user env update db current_user = (Return r, db') ->
  User.username (UserProfileResponse.user r) <> User.username current_user ->
  UserCreate.username user = User.username current_user ->
  ~ In (UserCreate.email user) (map User.email (users db')) ->
  exists new_user db'',
    register_user env' user db' = (Return new_user, db'')
    /\ User.username new_user = User.username current_user
    /\ User.id new_user <> User.id current_user.
Proof.
  intros Hr Hin Hupd Hne Hname Hmail.
  pose proof (reachable_users_ok Hr) as Hok.
  destruct (update_current_user_cases env update db current_user)
    as [[d [_ E]]|[cu' [E [Eid _]]]];
    rewrite E in Hupd; [discriminate|].
  injection Hupd as <- <-.
  rewrite refresh_commit with (cu := current_user) in Hne by assumption.
  cbn [UserProfileResponse.user] in Hne.
  destruct (register_user_cases env' user (commit_user cu' db))
    as [[He _]|[[_ [Hn _]]|[_ [_ E']]]].
  - exfalso. apply He. now apply first_by_email_none.
  - exfalso. apply Hn. apply first_by_username_none. rewrite Hname.
    now apply old_username_gone.
  - cbn zeta in E'. do 2 eexists. split; [exact E'|]. cbn.
    split; [exact Hname|].
    apply (ok_user_seq Hok) in Hin. lia.
Qed.

(** X7.  A profile update is idempotent: sent again by the user it
    returned, the same body is accepted, returns that user again and
    leaves the store as the first update left it. *)
Theorem update_current_user_idempotent env env' update db current_user r db' :
  reachable db -> In current_user (users db) ->
  update_current_user env update db current_user = (Return r, db') ->
  exists r',
    update_current_user env' update db' (UserProfileResponse.user r)
    = (Return r', db')
    /\ UserProfileResponse.user r' = UserProfileResponse.user r.
Proof.
  intros Hr Hin Hupd. pose proof (reachable_users_ok Hr) as Hok.
  assert (users_ok (snd (update_current_user env update db current_user)))
    as Hok' by now apply update_current_user_users_ok.
  destruct (update_current_user_cases env update db current_user)
    as [[d [_ E]]|[cu' [E [Eid [_ [_ [En [Ee _]]]]]]]];
    rewrite E in Hupd, Hok'; [discriminate|].
  injection Hupd as <- <-. cbn [snd] in Hok'.
  rewrite refresh_commit with (cu := current_user) by assumption.
  cbn [UserProfileResponse.user].
  assert (In cu' (users (commit_user cu' db))) as Hin'
    by now apply in_commit_user with (cu := current_user).
  set (db1 := commit_user cu' db) in *.
  assert (forall u, u = cu' -> commit_user u db1 = db1) as Hsame.
  { intros u ->. unfold commit_user, set_users.
    rewrite (commit_same User.id cu' (users db1) (ok_user_ids Hok') Hin').
    now destruct db1. }
  unfold update_current_user.
  destruct update as [[n|] [e|]];
    cbn [UserProfileUpdate.username UserProfileUpdate.email] in *.
  all: try destruct (truthy n) eqn:Htn.
  all: try destruct (truthy e) eqn:Hte.
  all: try rewrite <- En; try rewrite <- Ee.
  all: rewrite ?String.eqb_refl; cbn [negb andb].
  all: repeat match goal with
       | |- context [(?x =? ?y)%string] =>
         destruct (String.eqb_spec x y); cbn [negb andb]
       | |- context [is_some ?o] => destruct o; cbn [negb andb]
       end.
  all: try congruence.
  all: cbv zeta.
  all: assert (forall u, User.with_username (User.username u) u = u)
         as Hwn by (now intros []).
  all: assert (forall u, User.with_email (User.email u) u = u)
         as Hwe by (now intros []).
  all: rewrite ?Hwn, ?Hwe, (Hsame cu' eq_refl).
  all: assert (refresh cu' db1 = cu') as ->
         by (unfold db1; now apply refresh_commit with (cu := current_user)).
  all: eexists; split; reflexivity.
Qed.

End Profile.

Section Rows.
Context {V : Pydantic} {U : AuthUtils} {N : Numeric}.

(** X8.  A password change touches the row of the current user only, and
    there only the hash: every other row stays in the store as it is, a
    login under any other username gets what it got before, and the
    current user's row keeps its key, username, email and creation
    time. *)
Theorem change_password_leaves_others env env' payload db current_user :
  reachable db -> In current_user (users db) ->
  let db' := snd (change_password env payload db current_user) in
  (forall r, In r (users db) -> User.id r <> User.id current_user ->
     In r (users db'))
  /\ (forall login,
        UserLogin.username login <> User.username current_user ->
        fst (login_user env' login db') = fst (login_user env' login db))
  /\ (exists h,
        first_by_username (User.username current_user) db'
        = Some (User.with_password_hash h current_user)).
Proof.
  intros Hr Hin db'. pose proof (reachable_users_ok Hr) as Hok.
  assert (users_ok db') as Hok' by now apply change_password_users_ok.
  unfold db', change_password in *.
  destruct (negb _); cbn [snd] in *.
  - split; [auto|]. split; [auto|].
    exists (User.password_hash current_user).
    replace (User.with_password_hash _ current_user) with current_user
      by now destruct current_user.
    exact (first_by_username_unique _ _ (ok_usernames Hok) Hin).
  - set (cu' := User.with_password_hash _ current_user) in *.
    split; [|split].
    + intros r Hr' Hne. unfold commit_user, set_users. cbn [users].
      now apply in_other_commit.
    + intros login Hne. unfold login_user, first_by_username, commit_user,
        set_users. cbn [users].
      rewrite find_commit_others;
        [destruct (find _ _); [destruct (negb _)|]; reflexivity| |].
      * cbn. apply String.eqb_neq. congruence.
      * intros r Hr' Ek.
        assert (r = current_user) as ->
          by exact (NoDup_map_same_value User.id (users db) r current_user
                      (ok_user_ids Hok) Hr' Hin Ek).
        apply String.eqb_neq. congruence.
    + eexists.
      apply (first_by_username_unique _ cu' (ok_usernames Hok')).
      now apply in_commit_user with (cu := current_user).
Qed.

(** X13.  A profile update touches the row of the current user only:
    every other row stays in the store as it is, and a login under a
    username that is neither the user's old one nor the new one gets
    what it got before. *)
Theorem update_current_user_leaves_others env env' update db current_user r db' :
  reachable db -> In current_user (users db) ->
  update_current_user env update db current_user = (Return r, db') ->
  (forall row, In row (users db) -> User.id row <> User.id current_user ->
     In row (users db'))
  /\ (forall login,
        UserLogin.username login <> User.username current_user ->
        UserLogin.username login
        <> User.username (UserProfileResponse.user r) ->
        fst (login_user env' login db') = fst (login_user env' login db)).
Proof.
  intros Hr Hin Hupd. pose proof (reachable_users_ok Hr) as Hok.
  destruct (update_current_user_cases env update db current_user)
    as [[d [_ E]]|[cu' [E [Eid _]]]];
    rewrite E in Hupd; [discriminate|].
  injection Hupd as <- <-.
  rewrite refresh_commit with (cu := current_user) by assumption.
  cbn [UserProfileResponse.user]. split.
  - intros row Hrow Hne. unfold commit_user, set_users. cbn [users].
    apply in_other_commit; [exact Hrow|congruence].
  - intros login Hold Hnew.
    unfold login_user, first_by_username, commit_user, set_users.
    cbn [users].
    rewrite find_commit_others;
      [destruct (find _ _); [destruct (negb _)|]; reflexivity| |].
    + apply String.eqb_neq. congruence.
    + intros row Hrow Ek.
      assert (row = current_user) as ->
        by (apply (NoDup_map_same_value User.id (users db) row current_user
                     (ok_user_ids Hok) Hrow Hin); congruence).
      apply String.eqb_neq. congruence.
Qed.

(** X9.  No user handler removes a row or rewrites a key or a creation
    time: a row of a reachable store is still there, under the same key
    and creation time, after a registration, a login, a profile update
    or a password change.  A profile update also keeps its hash, a
    password change its username and email, a registration and a login
    the whole row. *)
Theorem user_rows_persist env db r :
  reachable db -> In r (users db) ->
  (forall user, In r (users (snd (register_user env user db))))
  /\ (forall user, In r (users (snd (login_user env user db))))
  /\ (forall update current_user,
        In current_user (users db) ->
        exists r',
          In r' (users (snd (update_current_user env update db current_user)))
          /\ User.id r' = User.id r
          /\ User.created_at r' = User.created_at r
          /\ User.password_hash r' = User.password_hash r)
  /\ (forall payload current_user,
        In current_user (users db) ->
        exists r',
          In r' (users (snd (change_password env payload db current_user)))
          /\ User.id r' = User.id r
          /\ User.created_at r' = User.created_at r
          /\ User.username r' = User.username r
          /\ User.email r' = User.email r).
Proof.
  intros Hr Hin. pose proof (reachable_users_ok Hr) as Hok.
  assert (forall cu cu', In cu (users db) -> User.id cu' = User.id cu ->
            (In r (users (commit_user cu' db)) /\ User.id r <> User.id cu)
            \/ (r = cu /\ In cu' (users (commit_user cu' db)))) as Hcommit.
  { intros cu cu' Hcu Eid.
    destruct (Nat.eq_dec (User.id r) (User.id cu)) as [E|E].
    - right. split.
      + exact (NoDup_map_same_value User.id (users db) r cu
                 (ok_user_ids Hok) Hin Hcu E).
      + now apply in_commit_user with (cu := cu).
    - left. split; [|exact E]. unfold commit_user, set_users. cbn [users].
      apply in_other_commit; [exact Hin|congruence]. }
  split; [|split; [|split]].
  - intros user.
    destruct (register_user_cases env user db)
      as [[_ E]|[[_ [_ E]]|[_ [_ E]]]]; rewrite E; try exact Hin.
    cbn. apply in_app_iff. now left.
  - intros user. now rewrite login_user_same.
  - intros update cu Hcu.
    destruct (update_current_user_cases env update db cu)
      as [[d [_ E]]|[cu' [E [Eid [Eh [Ec _]]]]]]; rewrite E; cbn [snd].
    + now exists r.
    + destruct (Hcommit cu cu' Hcu Eid) as [[H _]|[-> H]].
      * now exists r.
      * now exists cu'.
  - intros payload cu Hcu. unfold change_password.
    destruct (negb _); cbn [snd]; [now exists r|].
    match goal with
    | |- context [commit_user ?u db] =>
      destruct (Hcommit cu u Hcu eq_refl) as [[H _]|[-> H]];
        [now exists r|now exists u]
    end.
Qed.

End Rows.

Section Schemas.
Context {V : Pydantic} {U : AuthUtils} {N : Numeric}.

Lemma register_user_fields_valid env user db :
  UserCreate.valid user = true ->
  stored_fields_valid db ->
  stored_fields_valid (snd (register_user env user db)).
Proof.
  intros Hvalid Hdb.
  destruct (register_user_cases env user db)
    as [[_ E]|[[_ [_ E]]|[_ [_ E]]]]; rewrite E; try exact Hdb.
  cbn zeta. cbn [snd add_user]. intros u Hu. cbn in Hu.
  apply in_app_iff in Hu. destruct Hu as [Hu|[<-|[]]]; [now apply Hdb|].
  unfold UserCreate.valid in Hvalid.
  apply andb_true_iff in Hvalid. destruct Hvalid as [Hvalid _].
  apply andb_true_iff in Hvalid. exact Hvalid.
Qed.

Lemma update_current_user_fields_valid env update db cu :
  UserProfileUpdate.valid update = true ->
  In cu (users db) ->
  stored_fields_valid db ->
  stored_fields_valid (snd (update_current_user env update db cu)).
Proof.
  intros Hvalid Hcu Hdb.
  destruct (update_current_user_cases env update db cu)
    as [[d [_ E]]|[cu' [E [_ [_ [_ [En [Ee _]]]]]]]]; rewrite E;
    [exact Hdb|].
  cbn [snd]. intros u Hu. unfold commit_user, set_users in Hu. cbn in Hu.
  apply in_commit in Hu. destruct Hu as [->|Hu]; [|now apply Hdb].
  destruct (Hdb cu Hcu) as [Hn He].
  unfold UserProfileUpdate.valid in Hvalid.
  apply andb_true_iff in Hvalid. destruct Hvalid as [Hvn Hve].
  rewrite En, Ee. split.
  - destruct (UserProfileUpdate.username update) as [n|]; [|exact Hn].
    now destruct (truthy n).
  - destruct (UserProfileUpdate.email update) as [e|]; [|exact He].
    now destruct (truthy e).
Qed.

Lemma change_password_fields_valid env payload db cu :
  In cu (users db) ->
  stored_fields_valid db ->
  stored_fields_valid (snd (change_password env payload db cu)).
Proof.
  intros Hcu Hdb. unfold change_password.
  destruct (negb _); [exact Hdb|].
  cbn [snd]. set (cu' := User.with_password_hash _ cu).
  intros u Hu. unfold commit_user, set_users in Hu. cbn [users] in Hu.
  apply in_commit in Hu. destruct Hu as [->|Hu]; [|now apply Hdb].
  exact (Hdb cu Hcu).
Qed.

Lemma stored_fields_valid_same_users db db' :
  users db' = users db -> stored_fields_valid db -> stored_fields_valid db'.
Proof. intros E H u Hu. rewrite E in Hu. now apply H. Qed.

Lemma serve_fields_valid env req db :
  stored_fields_valid db -> stored_fields_valid (snd (serve env req db)).
Proof.
  intros Hdb. destruct req; cbn [serve]; unfold authenticated;
    try (destruct (get_current_user env authorization db) as [u|e] eqn:Hu;
         [apply get_current_user_in in Hu|exact Hdb]).
  - destruct (UserCreate.valid user) eqn:Hv; [|exact Hdb].
    rewrite snd_respond. now apply register_user_fields_valid.
  - rewrite snd_respond. now rewrite login_user_same.
  - now rewrite snd_respond.
  - destruct (UserProfileUpdate.valid update) eqn:Hv; [|exact Hdb].
    rewrite snd_respond. now apply update_current_user_fields_valid.
  - destruct (PasswordChange.valid payload); [|exact Hdb].
    rewrite snd_respond. now apply change_password_fields_valid.
  - rewrite snd_respond.
    apply stored_fields_valid_same_users with (db := db); [|exact Hdb].
    apply create_calculation_users.
  - now rewrite snd_respond.
  - rewrite snd_respond. now rewrite read_calculation_same.
  - rewrite snd_respond.
    apply stored_fields_valid_same_users with (db := db); [|exact Hdb].
    apply update_calculation_users.
  - rewrite snd_respond.
    apply stored_fields_valid_same_users with (db := db); [|exact Hdb].
    apply delete_calculation_users.
Qed.

(** X10.  Whatever is stored passed the schemas: in a reachable store
    every username has 3 to 50 characters and every email is one
    [EmailStr] accepts.  So a login under a username of fewer than 3 or
    more than 50 characters is refused with 401 whatever the password. *)
Theorem reachable_fields_valid db :
  reachable db ->
  stored_fields_valid db
  /\ (forall env user,
        length_between 3 50 (UserLogin.username user) = false ->
        login_user env user db
        = (Raise (mkHTTPException 401 "Invalid credentials"), db)).
Proof.
  intros Hr.
  assert (stored_fields_valid db) as Hdb.
  { induction Hr as [|env req db _ IH]; [intros u []|].
    now apply serve_fields_valid. }
  split; [exact Hdb|].
  intros env user Hlen. unfold login_user.
  destruct (first_by_username _ db) as [u|] eqn:E; [|reflexivity].
  apply first_by_username_in in E. destruct E as [Hin Hname].
  destruct (Hdb u Hin) as [Hn _]. congruence.
Qed.

(** X11.  The schemas agree on their bounds: a [UserUpdate] with all
    three fields is valid exactly when the [UserCreate] with those
    fields is; a [UserProfileUpdate] is valid exactly when the
    [UserUpdate] with the same username and email and no password is;
    and the passwords of two valid registrations make a valid
    [PasswordChange]. *)
Theorem schemas_agree :
  (forall n e p,
     UserUpdate.valid (UserUpdate.Build (Some n) (Some e) (Some p))
     = UserCreate.valid (UserCreate.Build n e p))
  /\ (forall n e,
        UserProfileUpdate.valid (UserProfileUpdate.Build n e)
        = UserUpdate.valid (UserUpdate.Build n e None))
  /\ (forall user user',
        UserCreate.valid user = true -> UserCreate.valid user' = true ->
        PasswordChange.valid
          (PasswordChange.Build (UserCreate.password user)
                                (UserCreate.password user')) = true).
Proof.
  split; [reflexivity|]. split.
  - intros n e. unfold UserProfileUpdate.valid, UserUpdate.valid. cbn.
    now rewrite andb_true_r.
  - intros user user' H H'. unfold UserCreate.valid in *.
    apply andb_true_iff in H, H'. destruct H as [_ H], H' as [_ H'].
    unfold PasswordChange.valid. cbn. now rewrite H, H'.
Qed.

(** X12.  Registration, password change and login in a row: with a
    hashing utility that round-trips, the user a valid registration
    returns can change the password it registered with to any password
    of 8 to 100 characters (the body passes [PasswordChange] and the
    handler returns its message), and can then log in with the new
    one. *)
Theorem register_then_change_password env env1 env2 user db new_user db' new :
  reachable db -> hash_round_trip ->
  UserCreate.valid user = true ->
  length_between 8 100 new = true ->
  register_user env user db = (Return new_user, db') ->
  let payload := PasswordChange.Build (UserCreate.password user) new in
  PasswordChange.valid payload = true
  /\ exists db'',
       change_password env1 payload db' new_user
       = (Return [("message", "Password updated successfully")], db'')
       /\ login_user env2 (UserLogin.Build (UserCreate.username user) new) db''
          = (Return (Token.Build
                       (create_access_token (now env2)
                          [("sub", UserCreate.username user)])
                       "bearer"), db'').
Proof.
  intros Hr Hrt Hvalid Hnew Hreg payload.
  assert (users_ok (snd (register_user env user db))) as Hok'
    by (apply register_user_users_ok; now apply reachable_users_ok).
  destruct (register_user_cases env user db)
    as [[_ E]|[[_ [_ E]]|[_ [_ E]]]]; rewrite E in Hreg, Hok';
    try discriminate.
  cbn zeta in Hreg. injection Hreg as <- <-. cbn [snd] in Hok'.
  set (row := User.Build _ _ _ _ _) in *.
  assert (In row (users (add_user row db))) as Hin
    by (cbn; apply in_app_iff; right; now left).
  split.
  - unfold UserCreate.valid in Hvalid.
    apply andb_true_iff in Hvalid. destruct Hvalid as [_ Hp].
    unfold PasswordChange.valid, payload. cbn. now rewrite Hp, Hnew.
  - assert (users_ok (snd (change_password env1 payload (add_user row db) row)))
      as Hok'' by now apply change_password_users_ok.
    unfold change_password in *.
    cbn [PasswordChange.current_password PasswordChange.new_password payload
         User.password_hash row] in *.
    rewrite Hrt in *. cbn [negb snd] in *.
    eexists. split; [reflexivity|].
    set (row' := User.with_password_hash _ row) in *.
    assert (In row' (users (commit_user row' (add_user row db)))) as Hin'
      by now apply in_commit_user with (cu := row).
    pose proof (login_user_known env2 new _ row' (ok_usernames Hok'') Hin')
      as Hlogin.
    cbn [User.username User.password_hash User.with_password_hash row row']
      in Hlogin.
    now rewrite Hrt in Hlogin.
Qed.

End Schemas.

(* ------------------------------------------------------------------ *)
(** ** The compositions at concrete stores *)

Lemma register_user_then_lookup_witness :
  reachable db_alice
  /\ exists new_user db',
       register_user env1 bobby db_alice = (Return new_user, db')
       /\ first_by_username "bobby" db' = Some new_user
       /\ first_by_email "bob@example.com" db' = Some new_user
       /\ User.id new_user = 2.
Proof.
  split; [exact reachable_db_alice|].
  eexists. eexists. split; [vm_compute; reflexivity|].
  match goal with
  | |- first_by_username _ ?d = Some ?u /\ _ =>
    pose proof (register_user_then_lookup env1 bobby db_alice u d
                  reachable_db_alice eq_refl) as [_ [Hn [He _]]]
  end.
  split; [exact Hn|]. split; [exact He|reflexivity].
Defined.

Lemma register_user_leaves_other_logins_witness :
  UserLogin.username alice_login <> UserCreate.username bobby
  /\ fst (login_user env0 alice_login (snd (register_user env1 bobby db_alice)))
     = Return (Token.Build "jwt:alice" "bearer").
Proof.
  assert (UserLogin.username alice_login <> UserCreate.username bobby)
    as Hne by (vm_compute; discriminate).
  split; [exact Hne|].
  rewrite (register_user_leaves_other_logins env1 env0 bobby db_alice
             alice_login Hne).
  vm_compute. reflexivity.
Defined.

Lemma update_current_user_accepted_iff_witness :
  EmailStr "" = false
  /\ UserProfileUpdate.valid keep_names = true
  /\ exists r db',
       update_current_user env1 keep_names db_two alice_row = (Return r, db').
Proof.
  assert (EmailStr "" = false) as Hempty by reflexivity.
  assert (UserProfileUpdate.valid keep_names = true) as Hvalid
    by reflexivity.
  split; [exact Hempty|]. split; [exact Hvalid|].
  apply (update_current_user_accepted_iff env1 keep_names db_two alice_row
           Hempty Hvalid).
  split.
  - intros [n [E [Hne _]]]. vm_compute in E. injection E as <-.
    now apply Hne.
  - intros [e [E [Hne _]]]. vm_compute in E. injection E as <-.
    now apply Hne.
Defined.

Lemma update_current_user_then_login_witness :
  reachable db_alice
  /\ In alice_row (users db_alice)
  /\ exists r db',
       update_current_user env1 rename db_alice alice_row = (Return r, db')
       /\ login_user env0 (UserLogin.Build "alicia" "securepass123") db'
          = (Return (Token.Build "jwt:alicia" "bearer"), db')
       /\ login_user env0 alice_login db'
          = (Raise (mkHTTPException 401 "Invalid credentials"), db').
Proof.
  assert (In alice_row (users db_alice)) as Hin by (vm_compute; now left).
  split; [exact reachable_db_alice|]. split; [exact Hin|].
  eexists. eexists. split; [vm_compute; reflexivity|].
  match goal with
  | |- login_user _ _ ?d = _ /\ _ =>
    pose proof (update_current_user_then_login env1 env0 rename db_alice
                  alice_row _ d reachable_db_alice Hin eq_refl)
      as [_ [_ [Hnew Hold]]]
  end.
  split.
  - exact (Hnew "securepass123").
  - apply (Hold ltac:(vm_compute; discriminate) "securepass123").
Defined.

Lemma renamed_username_is_free_witness :
  reachable db_alice
  /\ In alice_row (users db_alice)
  /\ exists r db' new_user db'',
       update_current_user env1 rename db_alice alice_row = (Return r, db')
       /\ register_user env0 alice_returns db' = (Return new_user, db'')
       /\ User.username new_user = "alice"
       /\ User.id new_user <> 1.
Proof.
  assert (In alice_row (users db_alice)) as Hin by (vm_compute; now left).
  split; [exact reachable_db_alice|]. split; [exact Hin|].
  eexists. eexists.
  match goal with
  | |- exists new_user db'', update_current_user _ _ _ _ = (Return ?r, ?d) /\ _ =>
    assert (update_current_user env1 rename db_alice alice_row = (Return r, d))
      as Hupd by (vm_compute; reflexivity);
    destruct (renamed_username_is_free env1 env0 rename db_alice alice_row
                r d alice_returns reachable_db_alice Hin Hupd)
      as [new_user [db'' [Hreg [Hname Hid]]]]
  end.
  - vm_compute. discriminate.
  - reflexivity.
  - vm_compute. intros [H|[]]. discriminate.
  - exists new_user, db''. split; [exact Hupd|]. split; [exact Hreg|].
    split; [exact Hname|exact Hid].
Defined.

Lemma update_current_user_idempotent_witness :
  reachable db_alice
  /\ In alice_row (users db_alice)
  /\ exists r db' r',
       update_current_user env1 rename db_alice alice_row = (Return r, db')
       /\ update_current_user env0 rename db' (UserProfileResponse.user r)
          = (Return r', db').
Proof.
  assert (In alice_row (users db_alice)) as Hin by (vm_compute; now left).
  split; [exact reachable_db_alice|]. split; [exact Hin|].
  eexists. eexists.
  match goal with
  | |- exists r', update_current_user _ _ _ _ = (Return ?r, ?d) /\ _ =>
    assert (update_current_user env1 rename db_alice alice_row = (Return r, d))
      as Hupd by (vm_compute; reflexivity);
    destruct (update_current_user_idempotent env1 env0 rename db_alice
                alice_row r d reachable_db_alice Hin Hupd) as [r' [Hagain _]]
  end.
  exists r'. split; [exact Hupd|exact Hagain].
Defined.

Lemma change_password_leaves_others_witness :
  reachable db_two
  /\ In alice_row (users db_two)
  /\ UserLogin.username bobby_login <> User.username alice_row
  /\ fst (login_user env0 bobby_login
            (snd (change_password env1 new_password db_two alice_row)))
     = Return (Token.Build "jwt:bobby" "bearer").
Proof.
  assert (In alice_row (users db_two)) as Hin by (vm_compute; now left).
  assert (UserLogin.username bobby_login <> User.username alice_row)
    as Hne by (vm_compute; discriminate).
  split; [exact reachable_db_two|]. split; [exact Hin|].
  split; [exact Hne|].
  destruct (change_password_leaves_others env1 env0 new_password db_two
              alice_row reachable_db_two Hin) as [_ [Hlogin _]].
  rewrite (Hlogin bobby_login Hne). vm_compute. reflexivity.
Defined.

Lemma update_current_user_leaves_others_witness :
  reachable db_two
  /\ In alice_row (users db_two)
  /\ exists r db',
       update_current_user env1 rename db_two alice_row = (Return r, db')
       /\ fst (login_user env0 bobby_login db')
          = Return (Token.Build "jwt:bobby" "bearer").
Proof.
  assert (In alice_row (users db_two)) as Hin by (vm_compute; now left).
  split; [exact reachable_db_two|]. split; [exact Hin|].
  eexists. eexists. split; [vm_compute; reflexivity|].
  match goal with
  | |- fst (login_user _ _ ?d) = _ =>
    destruct (update_current_user_leaves_others env1 env0 rename db_two
                alice_row _ d reachable_db_two Hin eq_refl) as [_ Hlogin]
  end.
  rewrite (Hlogin bobby_login).
  - vm_compute. reflexivity.
  - vm_compute. discriminate.
  - vm_compute. discriminate.
Defined.

Lemma user_rows_persist_witness :
  reachable db_two
  /\ In alice_row (users db_two)
  /\ In alice_row (users (snd (register_user env1 alice_returns db_two)))
  /\ exists r',
       In r' (users (snd (update_current_user env1 rename db_two alice_row)))
       /\ User.id r' = 1
       /\ User.created_at r' = 1700000000%Z.
Proof.
  assert (In alice_row (users db_two)) as Hin by (vm_compute; now left).
  split; [exact reachable_db_two|]. split; [exact Hin|].
  destruct (user_rows_persist env1 db_two alice_row reachable_db_two Hin)
    as [Hreg [_ [Hupd _]]].
  split; [exact (Hreg alice_returns)|].
  destruct (Hupd rename alice_row Hin) as [r' [Hr' [Hid [Hc _]]]].
  exists r'. split; [exact Hr'|]. split; [exact Hid|exact Hc].
Defined.

Lemma reachable_fields_valid_witness :
  reachable db_two
  /\ length_between 3 50 (User.username alice_row) = true
  /\ login_user env1 (UserLogin.Build "al" "securepass123") db_two
     = (Raise (mkHTTPException 401 "Invalid credentials"), db_two).
Proof.
  destruct (reachable_fields_valid db_two reachable_db_two)
    as [Hfields Hlogin].
  split; [exact reachable_db_two|]. split.
  - apply (Hfields alice_row). vm_compute. now left.
  - apply Hlogin. reflexivity.
Defined.

Lemma schemas_agree_witness :
  UserCreate.valid alice = true
  /\ UserCreate.valid bobby = true
  /\ PasswordChange.valid
       (PasswordChange.Build "securepass123" "hunter2hunter2") = true.
Proof.
  assert (UserCreate.valid alice = true) as Ha by reflexivity.
  assert (UserCreate.valid bobby = true) as Hb by reflexivity.
  split; [exact Ha|]. split; [exact Hb|].
  destruct schemas_agree as [_ [_ Hpw]].
  exact (Hpw alice bobby Ha Hb).
Defined.

Lemma register_then_change_password_witness :
  reachable db_alice
  /\ hash_round_trip
  /\ UserCreate.valid bobby = true
  /\ length_between 8 100 "newsecure123" = true
  /\ exists new_user db' db'',
       register_user env0 bobby db_alice = (Return new_user, db')
       /\ change_password env1
            (PasswordChange.Build "hunter2hunter2" "newsecure123") db' new_user
          = (Return [("message", "Password updated successfully")], db'')
       /\ login_user env0 (UserLogin.Build "bobby" "newsecure123") db''
          = (Return (Token.Build "jwt:bobby" "bearer"), db'').
Proof.
  assert (UserCreate.valid bobby = true) as Hvalid by reflexivity.
  assert (length_between 8 100 "newsecure123" = true) as Hnew by reflexivity.
  split; [exact reachable_db_alice|].
  split; [exact reference_round_trip|].
  split; [exact Hvalid|]. split; [exact Hnew|].
  eexists. eexists.
  match goal with
  | |- exists db'', register_user _ _ _ = (Return ?u, ?d) /\ _ =>
    assert (register_user env0 bobby db_alice = (Return u, d))
      as Hreg by (vm_compute; reflexivity);
    destruct (register_then_change_password env0 env1 env0 bobby db_alice
                u d "newsecure123" reachable_db_alice reference_round_trip
                Hvalid Hnew Hreg) as [_ [db'' [Hchange Hlogin]]]
  end.
  exists db''. split; [exact Hreg|]. split; [exact Hchange|exact Hlogin].
Defined.

Lemma update_current_user_token_and_fields_witness :
  EmailStr "" = false
  /\ UserProfileUpdate.valid new_email = true
  /\ In alice_row (users db_alice)
  /\ exists r db',
       update_current_user env1 new_email db_alice alice_row = (Return r, db')
       /\ UserProfileResponse.access_token r = None
       /\ UserProfileResponse.token_type r = "bearer"
       /\ User.email (UserProfileResponse.user r) = "alice.new@example.com"
       /\ User.username (UserProfileResponse.user r) = "alice"
       /\ In (UserProfileResponse.user r) (users db').
Proof.
  assert (EmailStr "" = false) as Hempty by reflexivity.
  assert (UserProfileUpdate.valid new_email = true) as Hvalid by reflexivity.
  assert (In alice_row (users db_alice)) as Hin by (vm_compute; now left).
  split; [exact Hempty|]. split; [exact Hvalid|]. split; [exact Hin|].
  destruct (update_current_user_token_and_fields env1 new_email db_alice
              alice_row Hempty Hvalid Hin) as [Haccept Hfields].
  destruct Haccept as [r [db' Hupd]].
  - intros [n [E _]]. discriminate E.
  - intros [e [E [_ He]]]. vm_compute in E. injection E as <-.
    vm_compute in He. destruct He as [He|[]]. discriminate He.
  - exists r, db'. split; [exact Hupd|].
    destruct (Hfields r db' Hupd)
      as [_ [_ [Hnone [Hty [_ [_ [_ [_ [Hrow [Hmail _]]]]]]]]]].
    destruct (Hnone eq_refl) as [Htok Hname].
    split; [exact Htok|]. split; [exact Hty|].
    split; [exact (Hmail _ eq_refl)|]. split; [exact Hname|exact Hrow].
Defined.
